(** * TERMINUS: the tool-augmented conversation loop and the terminal tool

    A shallow embedding of
    - [simple_mcp/src/terminal_mcp/server.py]  (run_command, run_terminal_command),
    - [simple_mcp/client/client.py]            (ClaudeMCPClient.process_query),
    - [simple_mcp/client/mcp_slack_client.py]  (ChatDatabase, SlackMCPClient.process_with_context),
    followed by the properties stated about them.

    Conventions.  A Python [str] is a [string]; its characters are the
    [ascii] values.  A call that may raise returns an [Outcome]; [Raised e]
    carries [str(e)].  Whatever lives outside the repository (the host's
    [os.path] and subprocess layer, the completion service, the tool server)
    is an interface (a class) over an abstract world state that every call
    threads through. *)

From Stdlib Require Import List String Ascii ZArith Bool Lia Arith.
From Stdlib Require Import Numbers.DecimalString.
Import ListNotations.
Open Scope string_scope.

Set Implicit Arguments.
Set Warnings "-register-all".

(** ** Python values shared by all modules *)

Inductive Outcome (A : Type) : Type :=
| Returned (a : A)
| Raised (e : string).
Arguments Returned {A} a.
Arguments Raised {A} e.

Module Py.

(** [s[n:]] *)
Fixpoint drop (n : nat) (s : string) : string :=
  match n, s with
  | O, _ => s
  | S _, EmptyString => EmptyString
  | S k, String _ r => drop k r
  end.

(** [s[:n]] *)
Fixpoint take (n : nat) (s : string) : string :=
  match n, s with
  | O, _ => EmptyString
  | S _, EmptyString => EmptyString
  | S k, String c r => String c (take k r)
  end.

(** [s.startswith(p)] *)
Fixpoint startswith (p s : string) : bool :=
  match p with
  | EmptyString => true
  | String a p' =>
      match s with
      | EmptyString => false
      | String b s' => Ascii.eqb a b && startswith p' s'
      end
  end.

(** [s.endswith(c)] for a single character [c] *)
Fixpoint endswith_char (c : ascii) (s : string) : bool :=
  match s with
  | EmptyString => false
  | String d EmptyString => Ascii.eqb c d
  | String _ r => endswith_char c r
  end.

(** truth value of a string: [bool(s)] *)
Definition truthy (s : string) : bool :=
  match s with EmptyString => false | String _ _ => true end.

(** [x or d] for [x : Optional[str]] *)
Definition or_else (x : option string) (d : string) : string :=
  match x with
  | Some s => if truthy s then s else d
  | None => d
  end.

(** [c.isspace()] on the ASCII range: TAB..CR, FS..US and the blank *)
Definition isspace (c : ascii) : bool :=
  let n := nat_of_ascii c in
  ((9 <=? n)%nat && (n <=? 13)%nat) || ((28 <=? n)%nat && (n <=? 32)%nat).

Fixpoint all_space (s : string) : bool :=
  match s with
  | EmptyString => true
  | String c r => isspace c && all_space r
  end.

(** [s.lstrip()] *)
Fixpoint lstrip (s : string) : string :=
  match s with
  | EmptyString => EmptyString
  | String c r => if isspace c then lstrip r else s
  end.

(** [s.rstrip()] *)
Fixpoint rstrip (s : string) : string :=
  match s with
  | EmptyString => EmptyString
  | String c r => if all_space s then EmptyString else String c (rstrip r)
  end.

(** [s.strip()] *)
Definition strip (s : string) : string := rstrip (lstrip s).

(** [sep.join(parts)] *)
Definition join (sep : string) (parts : list string) : string :=
  String.concat sep parts.

(** [s.split()]: maximal runs of non-blank characters.  [cur] is the word
    being read, reversed. *)
Fixpoint split_go (cur : option string) (s : string) : list string :=
  match s with
  | EmptyString =>
      match cur with Some w => [w] | None => [] end
  | String c r =>
      if isspace c then
        match cur with
        | Some w => w :: split_go None r
        | None => split_go None r
        end
      else
        split_go (Some (match cur with Some w => w | None => "" end
                        ++ String c "")) r
  end.

Definition split (s : string) : list string := split_go None s.

(** [str(n)] for an [int] *)
Definition str_of_int (n : Z) : string :=
  NilZero.string_of_int (Z.to_int n).

(** the newline character as a string *)
Definition nl : string := String (ascii_of_nat 10) "".

End Py.

(** ** terminal_mcp/server.py *)

Module Terminal.

(** The dictionary returned by [run_command]. *)
Record CommandResult : Type := mkResult {
  stdout : string;
  stderr : string;
  return_code : Z;
  new_cwd : string }.

(** What a finished subprocess hands back: both streams already decoded
    (decoding with [errors='replace'] cannot fail) and the exit code. *)
Record Completed : Type := mkCompleted {
  proc_stdout : string;
  proc_stderr : string;
  proc_returncode : Z }.

(** The host as [run_command] sees it without launching anything:
    [platform.system()] and the [os.path] functions.  The two file-system
    tests read the world, which subprocesses may change. *)
Class Host (OS : Type) : Type := {
  system : string;
  isabs : string -> bool;
  path_join : string -> string -> string;
  path_exists : OS -> string -> bool;
  isdir : OS -> string -> bool;
  abspath : string -> string }.

(** [asyncio.create_subprocess_exec] on an argument vector and a directory, followed by
    [communicate()]: it raises or completes, and moves the world on. *)
Class Launcher (OS : Type) : Type := {
  create_subprocess_exec : OS -> list string -> string -> Outcome Completed * OS }.

Definition get_shell_command {OS} `{Host OS} : list string :=
  if String.eqb system "Darwin" then ["/bin/bash"; "-c"]
  else if String.eqb system "Windows" then ["cmd.exe"; "/c"]
  else ["/bin/bash"; "-c"].

Definition command_map : list (string * string) :=
  [ ("ls", "dir"); ("pwd", "cd"); ("cat", "type"); ("rm", "del");
    ("clear", "cls"); ("mkdir", "mkdir"); ("touch", "echo. >") ].

Fixpoint lookup (k : string) (m : list (string * string)) : option string :=
  match m with
  | [] => None
  | (k', v) :: r => if String.eqb k k' then Some v else lookup k r
  end.

(** The Windows branch of [run_command]: the first word is looked up in
    [command_map]; [cmd_parts[0]] raises IndexError on a blank command. *)
Definition translate {OS} `{Host OS} (command : string) : Outcome string :=
  if String.eqb system "Windows" then
    match Py.split command with
    | [] => Raised "list index out of range"
    | w :: ws =>
        match lookup w command_map with
        | Some w' => Returned (Py.join " " (w' :: ws))
        | None => Returned command
        end
    end
  else Returned command.

(** The [except Exception as e] result of [run_command]. *)
Definition fault_result (e base : string) : CommandResult :=
  mkResult "" ("Error executing command: " ++ e) (-1) base.

(** The subprocess path of [run_command] for an already translated command. *)
Definition launch {OS} `{Launcher OS} (os : OS) (argv : list string) (base : string)
  : CommandResult * OS :=
  match create_subprocess_exec os argv base with
  | (Returned p, os') =>
      (mkResult (proc_stdout p) (proc_stderr p) (proc_returncode p) base, os')
  | (Raised e, os') => (fault_result e base, os')
  end.

(** [run_command(command, cwd)]; [current_directory] is the module global
    it reads. *)
Definition run_command {OS} `{Host OS} `{Launcher OS}
  (os : OS) (current_directory : string) (command : string) (cwd : option string)
  : CommandResult * OS :=
  let shell_cmd := get_shell_command in
  if Py.startswith "cd " command then
    let new_dir := Py.strip (Py.drop 3 command) in
    let target_dir :=
      if isabs new_dir then new_dir
      else path_join (Py.or_else cwd current_directory) new_dir in
    if path_exists os target_dir && isdir os target_dir then
      (mkResult ("Changed directory to: " ++ target_dir) "" 0 (abspath target_dir), os)
    else
      (mkResult "" ("Directory not found: " ++ target_dir) 1
                (Py.or_else cwd current_directory), os)
  else
    match translate command with
    | Raised e => (fault_result e (Py.or_else cwd current_directory), os)
    | Returned command' =>
        launch os (shell_cmd ++ [command']) (Py.or_else cwd current_directory)
    end.

(** The text block [run_terminal_command] returns. *)
Definition format_output (command working_dir : string) (result : CommandResult) : string :=
  let output := "Command: " ++ command ++ Py.nl in
  let output := output ++ "Working Directory: " ++ working_dir ++ Py.nl in
  let output := output ++ "Return Code: " ++ Py.str_of_int (return_code result)
                       ++ Py.nl ++ Py.nl in
  let output :=
    if Py.truthy (stdout result)
    then output ++ "Output:" ++ Py.nl ++ stdout result ++ Py.nl else output in
  let output :=
    if Py.truthy (stderr result)
    then output ++ "Error:" ++ Py.nl ++ stderr result ++ Py.nl else output in
  output.

(** The process-wide state of the server: the global [current_directory]. *)
Record ServerState : Type := mkServer { current_directory : string }.

(** [run_terminal_command(command, working_directory)]: the returned text,
    the world and the server state afterwards. *)
Definition run_terminal_command {OS} `{Host OS} `{Launcher OS}
  (os : OS) (st : ServerState) (command : string) (working_directory : option string)
  : string * OS * ServerState :=
  let working_dir := Py.or_else working_directory (current_directory st) in
  let '(result, os') := run_command os (current_directory st) command (Some working_dir) in
  let st' :=
    if Py.startswith "cd " command && (return_code result =? 0)%Z
    then mkServer (new_cwd result)
    else st in
  (format_output command working_dir result, os', st').

End Terminal.

(** ** A POSIX host

    [posixpath] as CPython defines it, over a file system that is a set of
    directories and a set of regular files, each named by its normalised
    absolute path (no symbolic links).  It instantiates [Terminal.Host] for
    concrete runs. *)

Module Posix.

Record FS : Type := mkFS {
  dirs : list string;
  files : list string }.

(** [s.split(sep)] for a one-character separator; [cur] is the field being
    read. *)
Fixpoint split_on (sep : ascii) (cur : string) (s : string) : list string :=
  match s with
  | EmptyString => [cur]
  | String c r =>
      if Ascii.eqb c sep then cur :: split_on sep "" r
      else split_on sep (cur ++ String c "") r
  end.

Definition isabs (s : string) : bool := Py.startswith "/" s.

(** [posixpath.join(a, b)] *)
Definition join (a b : string) : string :=
  if Py.startswith "/" b then b
  else if negb (Py.truthy a) || Py.endswith_char "/" a then a ++ b
  else a ++ "/" ++ b.

Definition is_nil {A} (l : list A) : bool :=
  match l with [] => true | _ => false end.

(** One iteration of the component loop of [posixpath.normpath]. *)
Definition norm_step (initial_slashes : nat) (new_comps : list string) (comp : string)
  : list string :=
  if String.eqb comp "" || String.eqb comp "." then new_comps
  else if negb (String.eqb comp "..")
          || ((initial_slashes =? 0)%nat && is_nil new_comps)
          || (negb (is_nil new_comps) && String.eqb (last new_comps "") "..")
       then new_comps ++ [comp]
  else if negb (is_nil new_comps) then removelast new_comps
  else new_comps.

Fixpoint slashes (n : nat) : string :=
  match n with O => "" | S k => "/" ++ slashes k end.

Definition normpath (path : string) : string :=
  if negb (Py.truthy path) then "."
  else
    let initial_slashes :=
      if Py.startswith "/" path then
        if Py.startswith "//" path && negb (Py.startswith "///" path) then 2 else 1
      else 0 in
    let comps := fold_left (norm_step initial_slashes) (split_on "/" "" path) [] in
    let path' := slashes initial_slashes ++ Py.join "/" comps in
    if Py.truthy path' then path' else ".".

(** [posixpath.abspath(p)] in a process whose working directory is [getcwd]. *)
Definition abspath (getcwd : string) (path : string) : string :=
  normpath (if isabs path then path else join getcwd path).

Definition mem (s : string) (l : list string) : bool := existsb (String.eqb s) l.

Definition isdir (getcwd : string) (fs : FS) (p : string) : bool :=
  mem (abspath getcwd p) (dirs fs).

Definition path_exists (getcwd : string) (fs : FS) (p : string) : bool :=
  mem (abspath getcwd p) (dirs fs) || mem (abspath getcwd p) (files fs).

(** A Linux host started in [getcwd]. *)
Definition host (getcwd : string) : Terminal.Host FS :=
  {| Terminal.system := "Linux";
     Terminal.isabs := isabs;
     Terminal.path_join := join;
     Terminal.path_exists := path_exists getcwd;
     Terminal.isdir := isdir getcwd;
     Terminal.abspath := abspath getcwd |}.

(** A launcher whose every command prints its own argument vector and exits
    with status 0, leaving the file system as it was. *)
Definition echo_launcher : Terminal.Launcher FS :=
  {| Terminal.create_subprocess_exec := fun fs argv _ =>
       (Returned (Terminal.mkCompleted (Py.join " " argv) "" 0), fs) |}.

(** A launcher that cannot start anything. *)
Definition broken_launcher : Terminal.Launcher FS :=
  {| Terminal.create_subprocess_exec := fun fs _ _ =>
       (Raised "[Errno 2] No such file or directory", fs) |}.

(** The file system used in the worked examples. *)
Definition demo_fs : FS := mkFS ["/"; "/srv"; "/srv/app"; "/srv/app/sub"] ["/srv/app/run.sh"].

End Posix.

(** ** hashlib.md5

    RFC 1321 on a list of bytes, with 32-bit words as integers reduced
    modulo [2^32]; [hexdigest] prints the sixteen digest bytes in lower-case
    hexadecimal. *)

Module Hashlib.

Local Open Scope Z_scope.

Definition w32 (x : Z) : Z := x mod 2 ^ 32.

Definition rotl32 (x c : Z) : Z :=
  Z.lor (w32 (Z.shiftl x c)) (Z.shiftr x (32 - c)).

Definition not32 (x : Z) : Z := Z.lxor x 0xffffffff.

Definition shifts : list Z :=
  [ 7; 12; 17; 22; 7; 12; 17; 22; 7; 12; 17; 22; 7; 12; 17; 22;
    5;  9; 14; 20; 5;  9; 14; 20; 5;  9; 14; 20; 5;  9; 14; 20;
    4; 11; 16; 23; 4; 11; 16; 23; 4; 11; 16; 23; 4; 11; 16; 23;
    6; 10; 15; 21; 6; 10; 15; 21; 6; 10; 15; 21; 6; 10; 15; 21 ].

Definition sines : list Z :=
  [ 0xd76aa478; 0xe8c7b756; 0x242070db; 0xc1bdceee;
    0xf57c0faf; 0x4787c62a; 0xa8304613; 0xfd469501;
    0x698098d8; 0x8b44f7af; 0xffff5bb1; 0x895cd7be;
    0x6b901122; 0xfd987193; 0xa679438e; 0x49b40821;
    0xf61e2562; 0xc040b340; 0x265e5a51; 0xe9b6c7aa;
    0xd62f105d; 0x02441453; 0xd8a1e681; 0xe7d3fbc8;
    0x21e1cde6; 0xc33707d6; 0xf4d50d87; 0x455a14ed;
    0xa9e3e905; 0xfcefa3f8; 0x676f02d9; 0x8d2a4c8a;
    0xfffa3942; 0x8771f681; 0x6d9d6122; 0xfde5380c;
    0xa4beea44; 0x4bdecfa9; 0xf6bb4b60; 0xbebfbc70;
    0x289b7ec6; 0xeaa127fa; 0xd4ef3085; 0x04881d05;
    0xd9d4d039; 0xe6db99e5; 0x1fa27cf8; 0xc4ac5665;
    0xf4292244; 0x432aff97; 0xab9423a7; 0xfc93a039;
    0x655b59c3; 0x8f0ccc92; 0xffeff47d; 0x85845dd1;
    0x6fa87e4f; 0xfe2ce6e0; 0xa3014314; 0x4e0811a1;
    0xf7537e82; 0xbd3af235; 0x2ad7d2bb; 0xeb86d391 ].

Definition at_ (l : list Z) (i : nat) : Z := nth i l 0.

(** The message length in bits as eight little-endian bytes. *)
Fixpoint le_bytes (n : nat) (x : Z) : list Z :=
  match n with
  | O => []
  | S k => x mod 256 :: le_bytes k (x / 256)
  end.

Definition pad (msg : list Z) : list Z :=
  let len := Z.of_nat (List.length msg) in
  let zeros := Z.to_nat ((55 - len) mod 64) in
  msg ++ [0x80] ++ repeat 0 zeros ++ le_bytes 8 ((8 * len) mod 2 ^ 64).

(** Four bytes, least significant first, as one word. *)
Definition word_of (bs : list Z) : Z :=
  at_ bs 0 + 256 * (at_ bs 1 + 256 * (at_ bs 2 + 256 * at_ bs 3)).

Fixpoint words (n : nat) (bs : list Z) : list Z :=
  match n with
  | O => []
  | S k => word_of (firstn 4 bs) :: words k (skipn 4 bs)
  end.

Definition round (m : list Z) (st : Z * Z * Z * Z) (i : nat) : Z * Z * Z * Z :=
  let '(a, b, c, d) := st in
  let '(f, g) :=
    if (i <? 16)%nat then (Z.lor (Z.land b c) (Z.land (not32 b) d), i)
    else if (i <? 32)%nat then (Z.lor (Z.land d b) (Z.land (not32 d) c), (5 * i + 1) mod 16)%nat
    else if (i <? 48)%nat then (Z.lxor (Z.lxor b c) d, (3 * i + 5) mod 16)%nat
    else (Z.lxor c (Z.lor b (not32 d)), (7 * i) mod 16)%nat in
  let f' := w32 (f + a + at_ sines i + at_ m g) in
  (d, w32 (b + rotl32 f' (at_ shifts i)), b, c).

Definition compress (h : Z * Z * Z * Z) (chunk : list Z) : Z * Z * Z * Z :=
  let '(a0, b0, c0, d0) := h in
  let '(a, b, c, d) := fold_left (round (words 16 chunk)) (seq 0 64) h in
  (w32 (a0 + a), w32 (b0 + b), w32 (c0 + c), w32 (d0 + d)).

Fixpoint chunks (n : nat) (h : Z * Z * Z * Z) (bs : list Z) : Z * Z * Z * Z :=
  match n with
  | O => h
  | S k => chunks k (compress h (firstn 64 bs)) (skipn 64 bs)
  end.

Definition digest (msg : list Z) : list Z :=
  let p := pad msg in
  let '(a, b, c, d) :=
    chunks (List.length p / 64)
           (0x67452301, 0xefcdab89, 0x98badcfe, 0x10325476) p in
  le_bytes 4 a ++ le_bytes 4 b ++ le_bytes 4 c ++ le_bytes 4 d.

Definition hex_digit (x : Z) : ascii :=
  ascii_of_nat (Z.to_nat (if x <? 10 then 48 + x else 87 + x)).

Fixpoint hex (bs : list Z) : string :=
  match bs with
  | [] => ""%string
  | b :: r => String (hex_digit (b / 16)) (String (hex_digit (b mod 16)) (hex r))
  end.

(** [s.encode()]: one byte per character. *)
Definition encode (s : string) : list Z :=
  map (fun c => Z.of_nat (nat_of_ascii c)) (list_ascii_of_string s).

(** [hashlib.md5(s.encode()).hexdigest()] *)
Definition md5_hexdigest (s : string) : string := hex (digest (encode s)).

End Hashlib.

(** ** mcp_slack_client.py: ChatDatabase *)

Module Json.

(** JSON values: tool inputs and input schemas. *)
Inductive t : Type :=
| Null
| Bool (b : bool)
| Num (n : Z)
| Str (s : string)
| Arr (items : list t)
| Obj (fields : list (string * t)).

(** truth value of a decoded JSON value *)
Definition truthy (j : t) : bool :=
  match j with
  | Null => false
  | Bool b => b
  | Num n => negb (n =? 0)%Z
  | Str s => Py.truthy s
  | Arr l => match l with [] => false | _ => true end
  | Obj l => match l with [] => false | _ => true end
  end.

End Json.

Module ChatDatabase.

(** A row of [messages] and a row of [tool_calls]; the autoincrement key
    and the timestamp are the position in the table. *)
Record MessageRow : Type := mkMessageRow {
  m_session_id : string;
  m_role : string;
  m_content : string }.

Record ToolCallRow : Type := mkToolCallRow {
  t_session_id : string;
  t_tool_name : string;
  t_input_params : Json.t;
  t_output : string;
  t_status : string }.

Record SessionRow : Type := mkSessionRow {
  s_session_id : string;
  s_channel_id : string;
  s_user_id : string;
  s_thread_ts : option string }.

Record Db : Type := mkDb {
  chat_sessions : list SessionRow;
  messages : list MessageRow;
  tool_calls : list ToolCallRow }.

Definition empty : Db := mkDb [] [] [].

(** The string [create_session_id] digests. *)
Definition components (channel_id user_id : string) (thread_ts : option string) : string :=
  channel_id ++ ":" ++ user_id ++ ":" ++ Py.or_else thread_ts "main".

Definition create_session_id (channel_id user_id : string) (thread_ts : option string)
  : string :=
  Hashlib.md5_hexdigest (components channel_id user_id thread_ts).

(** No [:] occurs in [s]. *)
Fixpoint colon_free (s : string) : bool :=
  match s with
  | EmptyString => true
  | String c r => negb (Ascii.eqb c ":") && colon_free r
  end.

Definition save_message (db : Db) (session_id role content : string) : Db :=
  mkDb (chat_sessions db)
       (messages db ++ [mkMessageRow session_id role content])
       (tool_calls db).

Definition save_tool_call (db : Db) (session_id tool_name : string)
  (input_params : Json.t) (output status : string) : Db :=
  mkDb (chat_sessions db)
       (messages db)
       (tool_calls db ++ [mkToolCallRow session_id tool_name input_params output status]).

(** The last [limit] rows of the session, oldest first (rows are taken to be
    time-stamped in insertion order). *)
Definition get_session_history (db : Db) (session_id : string) (limit : nat)
  : list MessageRow :=
  let rows := filter (fun r => String.eqb (m_session_id r) session_id) (messages db) in
  skipn (List.length rows - limit) rows.

(** INSERT OR REPLACE on the primary key [session_id]. *)
Definition upsert_session (db : Db) (session_id channel_id user_id : string)
  (thread_ts : option string) : Db :=
  mkDb (filter (fun r => negb (String.eqb (s_session_id r) session_id)) (chat_sessions db)
          ++ [mkSessionRow session_id channel_id user_id thread_ts])
       (messages db)
       (tool_calls db).

End ChatDatabase.

(** ** client.py and mcp_slack_client.py: the conversation loop *)

Module Client.

Import ChatDatabase.

(** An element of [response.content] as the completion service's client
    library hands it over: a text block, a tool-use block, a block that
    carries some other [type] tag (a thinking block, say), or an object
    without a [type] attribute. *)
Inductive Block : Type :=
| TextBlock (text : string)
| ToolUseBlock (id name : string) (input : Json.t)
| OtherBlock (type : string)
| Untyped.

(** A content block in the dictionary form kept in the message list. *)
Inductive ContentBlock : Type :=
| Text (text : string)
| ToolUse (id name : string) (input : Json.t)
| ToolResult (tool_use_id : string) (content : list ContentBlock).

Record Message : Type := mkMessage {
  role : string;
  content : list ContentBlock }.

(** A tool as the tool server lists it, and as it is offered upstream. *)
Record ToolDescriptor : Type := mkDescriptor {
  name : string;
  description : option string;
  inputSchema : option Json.t }.

Record ToolOffer : Type := mkOffer {
  offer_name : string;
  offer_description : string;
  input_schema : Json.t }.

(** One part of a list-shaped tool result: [getattr(part, "text", None)]
    and [repr(part)]. *)
Record Part : Type := mkPart {
  part_text : option string;
  part_repr : string }.

(** What [call_tool] returns: a list of parts, or any other object, known
    by its [str()]. *)
Inductive McpResult : Type :=
| PartList (parts : list Part)
| Object (str : string).

(** The keyword arguments of [messages.create] that vary
    ([tool_choice], [max_tokens] and [temperature] are constants). *)
Record Request : Type := mkRequest {
  req_model : string;
  req_system : string;
  req_tools : list ToolOffer;
  req_messages : list Message }.

(** The two remote services and the JSON serialiser, over a world [W]. *)
Class Services (W : Type) : Type := {
  list_tools : W -> Outcome (list ToolDescriptor) * W;
  create_message : W -> Request -> Outcome (list Block) * W;
  call_tool : W -> string -> Json.t -> Outcome McpResult * W;
  json_dumps : list Part -> string }.

(** The two clients. *)
Inductive Flavor : Type :=
| Console                          (* ClaudeMCPClient.process_query *)
| Slack (session_id : string).     (* SlackMCPClient.process_with_context *)

Definition MAX_TURNS (c : Flavor) : nat :=
  match c with Console => 100 | Slack _ => 10 end.

Definition system_prompt (c : Flavor) : string :=
  match c with
  | Console =>
      "You are an expert AWS Operations Assistant that can use MCP tools to inspect "
      ++ "and manage infrastructure, fetch logs, and summarize issues. Prefer precise, "
      ++ "actionable answers. If you need data, call tools."
  | Slack _ =>
      "You are an expert Terminal Operations Assistant integrated with Slack. "
      ++ "You can use MCP tools to inspect and manage infrastructure. "
      ++ "Be concise but informative in your responses, suitable for Slack messages. "
      ++ "Use Slack formatting for better readability."
  end.

Definition default_schema : Json.t :=
  Json.Obj [ ("type", Json.Str "object"); ("properties", Json.Obj []);
             ("additionalProperties", Json.Bool true) ].

Definition _anthropic_tools_from_mcp (mcp_tools : list ToolDescriptor) : list ToolOffer :=
  map (fun t =>
         mkOffer (name t)
                 (Py.or_else (description t) "")
                 (match inputSchema t with
                  | Some j => if Json.truthy j then j else default_schema
                  | None => default_schema
                  end))
      mcp_tools.

(** A tool-use block picked out of the reply. *)
Record ToolUseReq : Type := mkToolUse {
  tu_id : string;
  tu_name : string;
  tu_input : Json.t }.

(** [[b for b in assistant_content if hasattr(b, 'type') and b.type == "tool_use"]] *)
Fixpoint tool_uses_of (assistant_content : list Block) : list ToolUseReq :=
  match assistant_content with
  | [] => []
  | ToolUseBlock i n x :: r => mkToolUse i n x :: tool_uses_of r
  | _ :: r => tool_uses_of r
  end.

(** [[b for b in assistant_content if hasattr(b, 'type') and b.type == "text"]],
    as the list of their texts. *)
Fixpoint text_blocks_of (assistant_content : list Block) : list string :=
  match assistant_content with
  | [] => []
  | TextBlock t :: r => t :: text_blocks_of r
  | _ :: r => text_blocks_of r
  end.

(** The loop that fills [assistant_content_dicts]. *)
Fixpoint to_dicts (assistant_content : list Block) : list ContentBlock :=
  match assistant_content with
  | [] => []
  | TextBlock t :: r => Text t :: to_dicts r
  | ToolUseBlock i n x :: r => ToolUse i n x :: to_dicts r
  | OtherBlock _ :: r => to_dicts r
  | Untyped :: r => to_dicts r
  end.

(** Reading the dictionary form back: the [id] of a tool-use entry, the
    [tool_use_id] of a tool-result entry, and the block an entry stands for. *)
Definition use_id (d : ContentBlock) : option string :=
  match d with ToolUse i _ _ => Some i | _ => None end.

Definition result_id (d : ContentBlock) : option string :=
  match d with ToolResult i _ => Some i | _ => None end.

Definition ids (f : ContentBlock -> option string) (l : list ContentBlock) : list string :=
  flat_map (fun d => match f d with Some i => [i] | None => [] end) l.

Definition block_of (d : ContentBlock) : Block :=
  match d with
  | Text t => TextBlock t
  | ToolUse i n x => ToolUseBlock i n x
  | ToolResult _ _ => OtherBlock "tool_result"
  end.

(** The blocks the conversion has a branch for. *)
Definition recognised (b : Block) : bool :=
  match b with
  | TextBlock _ | ToolUseBlock _ _ _ => true
  | OtherBlock _ | Untyped => false
  end.

(** The cap written [[:10000]] in both clients. *)
Definition CAP : nat := Z.to_nat 10000.

(** [str(mcp_result)] *)
Definition str_of_result (r : McpResult) : string :=
  match r with
  | PartList parts => "[" ++ Py.join ", " (map part_repr parts) ++ "]"
  | Object s => s
  end.

(** The [result_text] of a call that returned.  The slice binds tighter
    than [or]: it applies to the serialised list, not to the part's text. *)
Definition result_text_of {W} `{Services W} (mcp_result : McpResult) : string :=
  match mcp_result with
  | PartList (part :: rest) =>
      match part_text part with
      | Some t =>
          if Py.truthy t then t
          else Py.take CAP (json_dumps (part :: rest))
      | None => Py.take CAP (json_dumps (part :: rest))
      end
  | _ => Py.take CAP (str_of_result mcp_result)
  end.

(** The body of [for tu in tool_uses] up to the append: the tool call inside
    its [try], the handler, and (for Slack) the row written to [tool_calls]. *)
Definition dispatch {W} `{Services W} (c : Flavor) (w : W) (db : Db) (tu : ToolUseReq)
  : string * W * Db :=
  match call_tool w (tu_name tu) (tu_input tu) with
  | (Returned mcp_result, w') =>
      let result_text := result_text_of mcp_result in
      (result_text, w',
       match c with
       | Console => db
       | Slack sid => save_tool_call db sid (tu_name tu) (tu_input tu) result_text "success"
       end)
  | (Raised e, w') =>
      let result_text := "Error executing tool '" ++ tu_name tu ++ "': " ++ e in
      (result_text, w',
       match c with
       | Console => db
       | Slack sid => save_tool_call db sid (tu_name tu) (tu_input tu) e "error"
       end)
  end.

(** [for tu in tool_uses: ...; tool_results_blocks.append(...)] *)
Fixpoint run_tools {W} `{Services W} (c : Flavor) (w : W) (db : Db)
  (tool_uses : list ToolUseReq) : list ContentBlock * W * Db :=
  match tool_uses with
  | [] => ([], w, db)
  | tu :: rest =>
      let '(result_text, w1, db1) := dispatch c w db tu in
      let '(blocks, w2, db2) := run_tools c w1 db1 rest in
      (ToolResult (tu_id tu) [Text result_text] :: blocks, w2, db2)
  end.

(** The state one invocation carries from turn to turn. *)
Record Conv (W : Type) : Type := mkConv {
  world : W;
  messages : list Message;
  db : Db }.

(** How one pass through the loop body ends. *)
Inductive Step : Type :=
| Continue
| Return (final_text : string).

Definition no_text (c : Flavor) : string :=
  match c with Console => "(No text returned.)" | Slack _ => "(No response)" end.

Definition completion_fault (c : Flavor) (e : string) : string :=
  match c with
  | Console => "Error calling Claude: " ++ e
  | Slack _ => " Error: " ++ e
  end.

(** The body of [for turn in range(MAX_TURNS)]. *)
Definition turn {W} `{Services W} (c : Flavor) (model : string) (tools : list ToolOffer)
  (st : Conv W) : Step * Conv W :=
  match create_message (world st) (mkRequest model (system_prompt c) tools (messages st)) with
  | (Raised e, w') =>
      (Return (completion_fault c e), mkConv w' (messages st) (db st))
  | (Returned assistant_content, w') =>
      let tool_uses := tool_uses_of assistant_content in
      let assistant_content_dicts := to_dicts assistant_content in
      let messages1 := (messages st ++ [mkMessage "assistant" assistant_content_dicts])%list in
      match tool_uses with
      | _ :: _ =>
          let '(tool_results_blocks, w2, db2) := run_tools c w' (db st) tool_uses in
          (Continue, mkConv w2 (messages1 ++ [mkMessage "user" tool_results_blocks])%list db2)
      | [] =>
          let text_blocks := text_blocks_of assistant_content in
          let final_text :=
            match text_blocks with
            | _ :: _ => Py.strip (Py.join Py.nl text_blocks)
            | [] => no_text c
            end in
          (Return final_text,
           mkConv w' messages1
                  match c with
                  | Console => db st
                  | Slack sid => save_message (db st) sid "assistant" final_text
                  end)
      end
  end.

(** What an invocation leaves behind: the returned text, the number of
    passes through the loop body (one completion-service call each), and the
    final state. *)
Record Run (W : Type) : Type := mkRun {
  answer : string;
  rounds : nat;
  final : Conv W }.

(** [for turn in range(MAX_TURNS): ...] followed by the exhaustion return;
    [left] turns remain and [done] have been made. *)
Fixpoint loop {W} `{Services W} (c : Flavor) (model : string) (tools : list ToolOffer)
  (left done : nat) (st : Conv W) : Run W :=
  match left with
  | O => mkRun "Conversation exceeded maximum turns." done st
  | S k =>
      match turn c model tools st with
      | (Continue, st') => loop c model tools k (S done) st'
      | (Return final_text, st') => mkRun final_text (S done) st'
      end
  end.

(** [ClaudeMCPClient.process_query(query)]; the tool listing sits outside
    the loop's [try]. *)
Definition process_query {W} `{Services W} (model : string) (w : W) (query : string)
  : Outcome (Run W) :=
  match list_tools w with
  | (Raised e, _) => Raised e
  | (Returned resp_tools, w1) =>
      let tools := _anthropic_tools_from_mcp resp_tools in
      let messages := [mkMessage "user" [Text query]] in
      Returned (loop Console model tools (MAX_TURNS Console) 0 (mkConv w1 messages empty))
  end.

(** [SlackMCPClient.process_with_context(query, session_id, ...)] on the
    database [db0]. *)
Definition process_with_context {W} `{Services W} (model : string) (w : W) (db0 : Db)
  (query session_id : string) : Outcome (Run W) :=
  let db1 := save_message db0 session_id "user" query in
  let history := get_session_history db1 session_id 5 in
  let messages :=
    (map (fun msg => mkMessage (m_role msg) [Text (m_content msg)]) (removelast history)
     ++ [mkMessage "user" [Text query]])%list in
  match list_tools w with
  | (Raised e, _) => Raised e
  | (Returned resp_tools, w1) =>
      let tools := _anthropic_tools_from_mcp resp_tools in
      Returned (loop (Slack session_id) model tools (MAX_TURNS (Slack session_id)) 0
                     (mkConv w1 messages db1))
  end.

End Client.

(** ** Concrete services for the worked examples *)

Module Demo.

Import Client.

Fixpoint flood (n : nat) : string :=
  match n with
  | O => ""
  | S k => String "x" (flood k)
  end.

Definition quote : string := String (ascii_of_nat 34) "".

(** A serialiser for lists of parts that quotes each [repr] as it is. *)
Definition dumps (parts : list Part) : string :=
  "[" ++ Py.join ", " (map (fun p => quote ++ part_repr p ++ quote) parts) ++ "]".

(** A tool server: [boom] raises, [flood] answers with one text part of
    10001 characters, anything else answers with an object. *)
Definition tool_server (name : string) (input : Json.t) : Outcome McpResult :=
  if String.eqb name "boom" then Raised "connection lost"
  else if String.eqb name "flood" then
    Returned (PartList [mkPart (Some (flood (S CAP))) "TextContent"])
  else Returned (Object ("ran " ++ name)).

Definition catalog : list ToolDescriptor :=
  [ mkDescriptor "run_terminal_command" (Some "Execute a command in the terminal") None ].

(** A completion service that plays back the replies held in the world,
    oldest first, and fails once they are used up. *)
Definition scripted : Services (list (Outcome (list Block))) :=
  {| list_tools := fun w => (Returned catalog, w);
     create_message := fun w _ =>
       match w with
       | [] => (Raised "Connection error.", [])
       | r :: w' => (r, w')
       end;
     call_tool := fun w n i => (tool_server n i, w);
     json_dumps := dumps |}.

(** A completion service that asks for the same tool on every turn. *)
Definition insistent : Services unit :=
  {| list_tools := fun w => (Returned catalog, w);
     create_message := fun w _ =>
       (Returned [TextBlock "Let me check."; ToolUseBlock "toolu_01" "get_system_info" (Json.Obj [])], w);
     call_tool := fun w n i => (tool_server n i, w);
     json_dumps := dumps |}.

End Demo.

(** ** terminal_mcp/server.py: the file tools *)

Module TerminalFiles.

Import Terminal.

(** What [read_file] and [write_file] ask of the host besides [os.path]:
    [open(path, 'r').read()], [open(path, 'w').write(content)],
    [os.makedirs(d, exist_ok=True)] and [os.path.dirname]. *)
Class Files (OS : Type) : Type := {
  open_read : OS -> string -> Outcome string;
  open_write : OS -> string -> string -> Outcome unit * OS;
  makedirs : OS -> string -> Outcome unit * OS;
  dirname : string -> string }.

(** [read_file(path)]; [current_directory] is the module global. *)
Definition read_file {OS} `{Host OS} `{Files OS}
  (os : OS) (current_directory : string) (path : string) : string :=
  let path := if negb (isabs path) then path_join current_directory path else path in
  match open_read os path with
  | Returned content => "File contents of " ++ path ++ ":" ++ Py.nl ++ Py.nl ++ content
  | Raised e => "Error reading file: " ++ e
  end.

(** [write_file(path, content)] *)
Definition write_file {OS} `{Host OS} `{Files OS}
  (os : OS) (current_directory : string) (path content : string) : string * OS :=
  let path := if negb (isabs path) then path_join current_directory path else path in
  match makedirs os (dirname path) with
  | (Raised e, os1) => ("Error writing file: " ++ e, os1)
  | (Returned _, os1) =>
      match open_write os1 path content with
      | (Raised e, os2) => ("Error writing file: " ++ e, os2)
      | (Returned _, os2) =>
          ("Successfully wrote to file: " ++ path ++ " " ++ Py.nl ++ Py.nl ++ content, os2)
      end
  end.

End TerminalFiles.

(** ** More hosts for the worked examples *)

Module Hosts.

(** A Windows host; only [platform.system()] matters on the paths it is
    used for, the path functions are the POSIX ones. *)
Definition windows (getcwd : string) : Terminal.Host Posix.FS :=
  {| Terminal.system := "Windows";
     Terminal.isabs := Posix.isabs;
     Terminal.path_join := Posix.join;
     Terminal.path_exists := Posix.path_exists getcwd;
     Terminal.isdir := Posix.isdir getcwd;
     Terminal.abspath := Posix.abspath getcwd |}.

(** A flat store of file contents, newest first. *)
Definition Store : Type := list (string * string).

Fixpoint read (p : string) (fs : Store) : option string :=
  match fs with
  | [] => None
  | (q, c) :: r => if String.eqb p q then Some c else read p r
  end.

Fixpoint has_slash (s : string) : bool :=
  match s with
  | EmptyString => false
  | String c r => Ascii.eqb c "/" || has_slash r
  end.

Fixpoint all_slash (s : string) : bool :=
  match s with
  | EmptyString => true
  | String c r => Ascii.eqb c "/" && all_slash r
  end.

(** [p[:p.rfind('/') + 1]] *)
Fixpoint head (p : string) : string :=
  match p with
  | EmptyString => EmptyString
  | String c r => if has_slash p then String c (head r) else EmptyString
  end.

(** [s.rstrip('/')] *)
Fixpoint rstrip_slash (s : string) : string :=
  match s with
  | EmptyString => EmptyString
  | String c r => if all_slash s then EmptyString else String c (rstrip_slash r)
  end.

(** [posixpath.dirname] *)
Definition dirname (p : string) : string :=
  let h := head p in
  if Py.truthy h && negb (all_slash h) then rstrip_slash h else h.

Definition store_host : Terminal.Host Store :=
  {| Terminal.system := "Linux";
     Terminal.isabs := Posix.isabs;
     Terminal.path_join := Posix.join;
     Terminal.path_exists := fun fs p => match read p fs with Some _ => true | None => false end;
     Terminal.isdir := fun _ _ => false;
     Terminal.abspath := Posix.abspath "/" |}.

Definition store_files : TerminalFiles.Files Store :=
  {| TerminalFiles.open_read := fun fs p =>
       match read p fs with
       | Some c => Returned c
       | None => Raised ("[Errno 2] No such file or directory: '" ++ p ++ "'")
       end;
     TerminalFiles.open_write := fun fs p c => (Returned tt, (p, c) :: fs);
     TerminalFiles.makedirs := fun fs _ => (Returned tt, fs);
     TerminalFiles.dirname := dirname |}.

End Hosts.

(** ** The shape of a transcript *)

Module Transcript.

Import Client.

Definition is_reply_entry (d : ContentBlock) : bool :=
  match d with Text _ | ToolUse _ _ _ => true | ToolResult _ _ => false end.

Definition is_result_entry (d : ContentBlock) : bool :=
  match d with ToolResult _ _ => true | _ => false end.

Fixpoint same_ids (a b : list string) : bool :=
  match a, b with
  | [], [] => true
  | x :: a', y :: b' => String.eqb x y && same_ids a' b'
  | _, _ => false
  end.

(** A run of turns as the loop writes it: an assistant message of text
    and tool-use entries, followed, when it asks for tools, by a user message
    of tool results carrying the same ids in the same order, and so on; an
    assistant message that asks for no tool ends the run. *)
Fixpoint well_paired (l : list Message) : bool :=
  match l with
  | [] => true
  | a :: r =>
      String.eqb (role a) "assistant"
      && forallb is_reply_entry (content a)
      && match ids use_id (content a), r with
         | [], [] => true
         | _ :: _, u :: r' =>
             String.eqb (role u) "user"
             && forallb is_result_entry (content u)
             && same_ids (ids use_id (content a)) (ids result_id (content u))
             && well_paired r'
         | _, _ => false
         end
  end.

End Transcript.

(** ** mcp_slack_client.py: the event handlers

    The Slack web API is taken to answer: a posted message lands in the
    outbox, an acknowledgement in the list of acknowledged envelopes, and
    [auth_test] names the bot's user id [bot_user]. *)

Module SlackBot.

Import ChatDatabase Client.

(** [s.replace(old, new)] for a non-empty [old]; [skip] characters of a
    match just replaced are still to be passed over. *)
Fixpoint replace_go (old new : string) (skip : nat) (s : string) : string :=
  match s with
  | EmptyString => EmptyString
  | String c r =>
      match skip with
      | S k => replace_go old new k r
      | O =>
          if Py.startswith old s
          then new ++ replace_go old new (String.length old - 1) r
          else String c (replace_go old new 0 r)
      end
  end.

Definition replace (old new s : string) : string := replace_go old new 0 s.

(** [a or b] on two optional strings. *)
Definition or_opt (a b : option string) : option string :=
  match a with
  | Some s => if Py.truthy s then a else b
  | None => b
  end.

(** truth value of an optional string *)
Definition truthy_opt (a : option string) : bool :=
  match a with Some s => Py.truthy s | None => false end.

(** The fields the handlers read off an event. *)
Record Event : Type := mkEvent {
  ev_type : option string;
  ev_channel : string;
  ev_user : string;
  ev_text : option string;
  ev_thread_ts : option string;
  ev_ts : option string;
  ev_bot_id : option string;
  ev_channel_type : option string }.

Record SocketRequest : Type := mkSocketRequest {
  req_type : string;
  envelope_id : string;
  payload_event : option Event }.

(** One [chat_postMessage]. *)
Record Post : Type := mkPost {
  post_channel : string;
  post_thread_ts : option string;
  post_text : string;
  post_mrkdwn : bool }.

(** The bot between two events. *)
Record Bot (W : Type) : Type := mkBot {
  bot_world : W;
  bot_db : Db;
  posted : list Post;
  acked : list string }.

Definition greeting : string :=
  "Hi! How can I help you? You can ask me about Terminal resources, logs, or infrastructure.".

(** The [try] around [process_with_context] and the post that follows,
    shared by both handlers; on a fault the query is already saved and the
    tool listing has been asked for. *)
Definition answer_in_thread {W} `{Services W} (model : string) (bot : Bot W)
  (channel_id : string) (reply_thread : option string) (text session_id : string)
  : Bot W :=
  match process_with_context model (bot_world bot) (bot_db bot) text session_id with
  | Returned r =>
      mkBot (world (final r)) (db (final r))
            (posted bot ++ [mkPost channel_id reply_thread (answer r) true])
            (acked bot)
  | Raised e =>
      mkBot (snd (list_tools (bot_world bot)))
            (save_message (bot_db bot) session_id "user" text)
            (posted bot ++ [mkPost channel_id reply_thread
                              (" Sorry, I encountered an error: " ++ e) false])
            (acked bot)
  end.

Definition handle_mention {W} `{Services W} (model bot_user : string) (bot : Bot W)
  (event : Event) : Bot W :=
  let channel_id := ev_channel event in
  let user_id := ev_user event in
  let text := match ev_text event with Some t => t | None => "" end in
  let thread_ts := or_opt (ev_thread_ts event) (ev_ts event) in
  let text := Py.strip (replace ("<@" ++ bot_user ++ ">") "" text) in
  if negb (Py.truthy text) then
    mkBot (bot_world bot) (bot_db bot)
          (posted bot ++ [mkPost channel_id thread_ts greeting false])
          (acked bot)
  else
    let session_id := create_session_id channel_id user_id thread_ts in
    let db1 := upsert_session (bot_db bot) session_id channel_id user_id thread_ts in
    answer_in_thread model (mkBot (bot_world bot) db1 (posted bot) (acked bot))
                     channel_id thread_ts text session_id.

Definition handle_message {W} `{Services W} (model : string) (bot : Bot W)
  (event : Event) : Bot W :=
  if truthy_opt (ev_bot_id event) then bot
  else
    let channel_id := ev_channel event in
    let user_id := ev_user event in
    let text := match ev_text event with Some t => t | None => "" end in
    let thread_ts := ev_thread_ts event in
    if negb (Py.truthy text) then bot
    else
      let session_id := create_session_id channel_id user_id thread_ts in
      let db1 := upsert_session (bot_db bot) session_id channel_id user_id thread_ts in
      answer_in_thread model (mkBot (bot_world bot) db1 (posted bot) (acked bot))
                       channel_id (or_opt thread_ts (ev_ts event)) text session_id.

Definition opt_is (a : option string) (s : string) : bool :=
  match a with Some x => String.eqb x s | None => false end.

Definition handle_slack_event {W} `{Services W} (model bot_user : string) (bot : Bot W)
  (req : SocketRequest) : Bot W :=
  if String.eqb (req_type req) "events_api" then
    let bot1 := mkBot (bot_world bot) (bot_db bot) (posted bot)
                      (acked bot ++ [envelope_id req]) in
    match payload_event req with
    | None => bot1
    | Some event =>
        if opt_is (ev_type event) "app_mention" then
          handle_mention model bot_user bot1 event
        else if opt_is (ev_type event) "message" then
          if opt_is (ev_channel_type event) "im" || truthy_opt (ev_thread_ts event)
          then handle_message model bot1 event
          else bot1
        else bot1
    end
  else bot.

End SlackBot.

(** ** Hexadecimal text *)

Module HexText.

Definition is_hex_char (c : ascii) : bool :=
  let n := nat_of_ascii c in
  ((48 <=? n)%nat && (n <=? 57)%nat) || ((97 <=? n)%nat && (n <=? 102)%nat).

Fixpoint all_hex (s : string) : bool :=
  match s with
  | EmptyString => true
  | String c r => is_hex_char c && all_hex r
  end.

End HexText.

(** * Properties *)

(** ** Strings *)

Module PyFacts.

Lemma take_length (n : nat) (s : string) : String.length (Py.take n s) <= n.
Proof.
  revert s; induction n as [|n IH]; intros [|c s]; simpl; try lia.
  specialize (IH s); lia.
Qed.

Lemma lstrip_all_space (s : string) : Py.all_space s = true -> Py.lstrip s = "".
Proof.
  induction s as [|c s IH]; simpl; [reflexivity|].
  intros H; apply andb_prop in H as [Hc Hs]; rewrite Hc; auto.
Qed.

Lemma strip_all_space (s : string) : Py.all_space s = true -> Py.strip s = "".
Proof. intros H; unfold Py.strip; rewrite lstrip_all_space by assumption; reflexivity. Qed.

Example strip_both_ends : Py.strip ("  a b " ++ Py.nl) = "a b".
Proof. reflexivity. Qed.

Example split_runs_of_blanks : Py.split "  ls   -la  /tmp " = ["ls"; "-la"; "/tmp"].
Proof. reflexivity. Qed.

Example str_of_minus_one : Py.str_of_int (-1) = "-1".
Proof. reflexivity. Qed.

Example normpath_cases :
  map Posix.normpath ["/srv/app/"; "/srv/app/../x/./y"; "//a"; "///a//b"; ""; "a/../.."; "/.."]
  = ["/srv/app"; "/srv/x/y"; "//a"; "/a/b"; "."; ".."; "/"].
Proof. reflexivity. Qed.

Example join_cases :
  [Posix.join "/srv" ""; Posix.join "/srv/" "x"; Posix.join "" "x"; Posix.join "/a" "/b"]
  = ["/srv/"; "/srv/x"; "x"; "/b"].
Proof. reflexivity. Qed.

End PyFacts.

(** ** The terminal tool *)

Module TerminalProps.

Import Terminal.

Section OnAnyHost.

Context {OS : Type} {H : Host OS}.

Lemma run_command_cd (L : Launcher OS) (os : OS) (cur command : string) (cwd : option string) :
  Py.startswith "cd " command = true ->
  run_command os cur command cwd =
  let base := Py.or_else cwd cur in
  let arg := Py.strip (Py.drop 3 command) in
  let target := if isabs arg then arg else path_join base arg in
  if path_exists os target && isdir os target
  then (mkResult ("Changed directory to: " ++ target) "" 0 (abspath target), os)
  else (mkResult "" ("Directory not found: " ++ target) 1 base, os).
Proof. intros Hcd; unfold run_command; rewrite Hcd; reflexivity. Qed.

Lemma translate_bare_cd : translate "cd" = Returned "cd".
Proof. unfold translate; destruct (String.eqb system "Windows"); reflexivity. Qed.

(** C5.  A command that starts with [cd ] is answered from the file-system
    tests alone: when the argument, joined to the effective working
    directory unless absolute, is an existing directory, the return code is
    0 and [new_cwd] is its absolute path; otherwise the return code is not
    0, [stderr] carries a message and [new_cwd] is the effective working
    directory.  Either way the world is left as it was and the answer is the
    same under every launcher: no subprocess is started. *)
Theorem cd_request_result (L : Launcher OS) (os : OS) (cur command : string)
  (cwd : option string) :
  Py.startswith "cd " command = true ->
  let base := Py.or_else cwd cur in
  let arg := Py.strip (Py.drop 3 command) in
  let target := if isabs arg then arg else path_join base arg in
  let r := fst (run_command os cur command cwd) in
  (if path_exists os target && isdir os target
   then return_code r = 0%Z /\ new_cwd r = abspath target
   else return_code r <> 0%Z
        /\ stderr r = "Directory not found: " ++ target
        /\ new_cwd r = base)
  /\ snd (run_command os cur command cwd) = os
  /\ (forall L' : Launcher OS,
        @run_command OS H L' os cur command cwd = run_command os cur command cwd).
Proof.
  intros Hcd base arg target r.
  split; [|split].
  - subst r. rewrite run_command_cd by exact Hcd. cbv zeta.
    fold base; fold arg; fold target.
    destruct (path_exists os target && isdir os target); simpl.
    + split; reflexivity.
    + repeat split; discriminate.
  - rewrite run_command_cd by exact Hcd. cbv zeta.
    match goal with |- snd (if ?b then _ else _) = _ => destruct b end; reflexivity.
  - intros L'. rewrite !run_command_cd by exact Hcd. reflexivity.
Qed.

(** C6.  After [run_terminal_command] the global directory is the result's
    [new_cwd] when the command starts with [cd ] and the result's return
    code is 0; in every other case the server state is the one before. *)
Theorem current_directory_commit (L : Launcher OS) (os : OS) (st : ServerState)
  (command : string) (working_directory : option string) :
  let working_dir := Py.or_else working_directory (current_directory st) in
  let r := fst (run_command os (current_directory st) command (Some working_dir)) in
  let st' := snd (run_terminal_command os st command working_directory) in
  match Py.startswith "cd " command, (return_code r =? 0)%Z with
  | true, true => current_directory st' = new_cwd r
  | _, _ => st' = st
  end.
Proof.
  intros working_dir r st'. subst st' r. unfold run_terminal_command.
  fold working_dir.
  destruct (run_command os (current_directory st) command (Some working_dir))
    as [result os'].
  cbn [fst snd].
  destruct (Py.startswith "cd " command); destruct (return_code result =? 0)%Z;
    reflexivity.
Qed.

(** C10, amended.  For [cd ] followed by blanks only, the argument is empty
    and the target is the effective working directory joined with the empty
    string: when that is an existing directory the return code is 0 and
    [new_cwd] is its absolute path, otherwise the return code is 1 and
    [new_cwd] is the effective working directory.  The bare command [cd]
    takes the subprocess path. *)
Theorem blank_cd_result (L : Launcher OS) (os : OS) (cur ws : string)
  (cwd : option string) :
  Py.all_space ws = true ->
  isabs "" = false ->
  let base := Py.or_else cwd cur in
  let target := path_join base "" in
  let r := fst (run_command os cur ("cd " ++ ws) cwd) in
  (if path_exists os target && isdir os target
   then return_code r = 0%Z /\ new_cwd r = abspath target
   else return_code r = 1%Z /\ new_cwd r = base)
  /\ run_command os cur "cd" cwd = launch os (get_shell_command ++ ["cd"]) base.
Proof.
  intros Hws Habs base target r. split.
  - subst r. rewrite run_command_cd by reflexivity. cbv zeta.
    change (Py.drop 3 ("cd " ++ ws)) with ws.
    rewrite (PyFacts.strip_all_space _ Hws), Habs.
    fold base; fold target.
    destruct (path_exists os target && isdir os target); split; reflexivity.
  - unfold run_command.
    change (Py.startswith "cd " "cd") with false. cbv iota.
    rewrite translate_bare_cd. reflexivity.
Qed.

End OnAnyHost.

Lemma cd_request_result_witness :
  Py.startswith "cd " "cd ./sub" = true
  /\ let r := fst (@run_command _ (Posix.host "/srv") Posix.echo_launcher
                     Posix.demo_fs "/srv/app" "cd ./sub" None) in
     return_code r = 0%Z /\ new_cwd r = "/srv/app/sub".
Proof.
  split; [reflexivity|].
  exact (proj1 (@cd_request_result _ (Posix.host "/srv") Posix.echo_launcher
                  Posix.demo_fs "/srv/app" "cd ./sub" None eq_refl)).
Defined.

Lemma blank_cd_result_witness :
  Py.all_space "  " = true
  /\ let r := fst (@run_command _ (Posix.host "/srv") Posix.echo_launcher
                     Posix.demo_fs "/srv/app" "cd   " None) in
     return_code r = 0%Z /\ new_cwd r = "/srv/app".
Proof.
  split; [reflexivity|].
  exact (proj1 (@blank_cd_result _ (Posix.host "/srv") Posix.echo_launcher
                  Posix.demo_fs "/srv/app" "  " None eq_refl eq_refl)).
Defined.

(** C10 as stated fails when the working directory is not there: with a
    working directory that does not exist, or none given after the
    remembered one was removed, [cd ] followed by blanks returns 1. *)
Lemma blank_cd_missing_directory :
  Py.startswith "cd " "cd  " = true
  /\ Py.all_space (Py.drop 3 "cd  ") = true
  /\ return_code (fst (@run_command _ (Posix.host "/srv") Posix.echo_launcher
                         Posix.demo_fs "/srv/app" "cd  " (Some "/nonexistent"))) = 1%Z
  /\ return_code (fst (@run_command _ (Posix.host "/srv") Posix.echo_launcher
                         Posix.demo_fs "/srv/gone" "cd  " None)) = 1%Z.
Proof. repeat split. Qed.

End TerminalProps.

(** ** The conversation loop *)

Module ClientProps.

Import Client.

Section OnAnyServices.

Context {W : Type} {Svc : Services W}.

(** *** The tool round *)

Lemma run_tools_shape (c : Flavor) (tus : list ToolUseReq) (w : W) (db : ChatDatabase.Db) :
  Forall2 (fun r tu => exists text, r = ToolResult (tu_id tu) [Text text])
          (fst (fst (run_tools c w db tus))) tus.
Proof.
  revert w db; induction tus as [|tu tus IH]; intros w db; simpl.
  - constructor.
  - destruct (dispatch c w db tu) as [[text w1] db1].
    specialize (IH w1 db1).
    destruct (run_tools c w1 db1 tus) as [[blocks w2] db2]; simpl in *.
    constructor; [eexists; reflexivity | exact IH].
Qed.

Lemma shape_ids (results : list ContentBlock) (tus : list ToolUseReq) :
  Forall2 (fun r tu => exists text, r = ToolResult (tu_id tu) [Text text]) results tus ->
  ids result_id results = map tu_id tus.
Proof.
  induction 1 as [|r tu rs tus [text ->] _ IH]; [reflexivity|].
  unfold ids in *; simpl; rewrite IH; reflexivity.
Qed.

Lemma use_ids_to_dicts (content : list Block) :
  ids use_id (to_dicts content) = map tu_id (tool_uses_of content).
Proof.
  induction content as [|b content IH]; simpl; [reflexivity|].
  destruct b; simpl; unfold ids in *; simpl; rewrite ?IH; reflexivity.
Qed.

Lemma same_id_same_use (tus : list ToolUseReq) (a b : ToolUseReq) :
  NoDup (map tu_id tus) -> In a tus -> In b tus -> tu_id a = tu_id b -> a = b.
Proof.
  induction tus as [|x tus IH]; simpl; [tauto|].
  intros Hnd Ha Hb Hid. inversion Hnd as [|? ? Hnotin Hnd']; subst.
  destruct Ha as [<-|Ha], Hb as [<-|Hb]; auto.
  - exfalso; apply Hnotin; rewrite Hid; apply in_map; assumption.
  - exfalso; apply Hnotin; rewrite <- Hid; apply in_map; assumption.
Qed.

Lemma shape_unique (results : list ContentBlock) (tus : list ToolUseReq) :
  Forall2 (fun r tu => exists text, r = ToolResult (tu_id tu) [Text text]) results tus ->
  NoDup (map tu_id tus) ->
  forall r, In r results ->
  exists! tu, In tu tus /\ result_id r = Some (tu_id tu).
Proof.
  intros HF Hnd r Hr.
  assert (exists tu, In tu tus /\ result_id r = Some (tu_id tu)) as [tu [Hin Hid]].
  { clear Hnd. induction HF as [|r0 tu0 rs tus0 [text ->] _ IH]; simpl in *; [tauto|].
    destruct Hr as [<-|Hr].
    - exists tu0; split; [left; reflexivity | reflexivity].
    - destruct (IH Hr) as [tu [Hin Hid]]. exists tu; split; [right; assumption | assumption]. }
  exists tu; split; [split; assumption|].
  intros tu' [Hin' Hid']. eapply same_id_same_use; eauto. congruence.
Qed.

Lemma turn_tool_round (c : Flavor) (model : string) (tools : list ToolOffer)
  (st : Conv W) (content : list Block) (w1 : W) :
  create_message (world st) (mkRequest model (system_prompt c) tools (messages st))
    = (Returned content, w1) ->
  tool_uses_of content <> [] ->
  turn c model tools st =
  (Continue,
   mkConv (snd (fst (run_tools c w1 (db st) (tool_uses_of content))))
          (messages st ++ [mkMessage "assistant" (to_dicts content);
                           mkMessage "user" (fst (fst (run_tools c w1 (db st) (tool_uses_of content))))])
          (snd (run_tools c w1 (db st) (tool_uses_of content)))).
Proof.
  intros Hc Hne. unfold turn. rewrite Hc.
  destruct (tool_uses_of content) as [|tu tus] eqn:E; [congruence|].
  destruct (run_tools c w1 (db st) (tu :: tus)) as [[blocks w2] db2]. simpl.
  rewrite <- app_assoc. reflexivity.
Qed.

(** C1.  A reply with at least one tool-use block makes the turn append
    the assistant message and then exactly one user message, and continue.
    That user message holds one tool-result block per tool-use block, in the
    order of the reply: block for block the result carries the id of the
    tool-use block at the same position, so the ids read off the user
    message are the ids read off the assistant message.  Where the reply's
    ids are pairwise distinct, each result's id is the id of exactly one
    tool-use block. *)
Theorem tool_round_results (c : Flavor) (model : string) (tools : list ToolOffer)
  (st : Conv W) (content : list Block) (w1 : W) :
  create_message (world st) (mkRequest model (system_prompt c) tools (messages st))
    = (Returned content, w1) ->
  tool_uses_of content <> [] ->
  exists (results : list ContentBlock) (w2 : W) (db2 : ChatDatabase.Db),
    turn c model tools st =
      (Continue,
       mkConv w2
              (messages st ++ [mkMessage "assistant" (to_dicts content);
                               mkMessage "user" results])
              db2)
    /\ List.length results = List.length (tool_uses_of content)
    /\ Forall2 (fun r tu => exists text, r = ToolResult (tu_id tu) [Text text])
               results (tool_uses_of content)
    /\ ids result_id results = ids use_id (to_dicts content)
    /\ (NoDup (ids use_id (to_dicts content)) ->
        forall r, In r results ->
        exists! tu, In tu (tool_uses_of content) /\ result_id r = Some (tu_id tu)).
Proof.
  intros Hc Hne.
  pose proof (run_tools_shape c (tool_uses_of content) w1 (db st)) as HF.
  eexists _, _, _. split; [eapply turn_tool_round; eassumption|].
  split; [exact (Forall2_length HF)|].
  split; [exact HF|].
  split; [rewrite use_ids_to_dicts; apply shape_ids; exact HF|].
  rewrite use_ids_to_dicts. intros Hnd. apply shape_unique; assumption.
Qed.

(** *** The assistant message *)

Lemma to_dicts_roundtrip (content : list Block) :
  map block_of (to_dicts content) = filter recognised content.
Proof.
  induction content as [|b content IH]; simpl; [reflexivity|].
  destruct b; simpl; rewrite ?IH; reflexivity.
Qed.

(** C8, amended.  Whatever the reply holds, the turn first appends one
    assistant message built from it, before any tool handling: the message
    list afterwards is the old one, that message, and whatever the tool round
    adds.  The message keeps the reply's text and tool-use blocks, all of
    them, in order and with their fields: read back as blocks they are the
    reply restricted to those two kinds.  Blocks of any other kind are left
    out. *)
Theorem assistant_message_appended (c : Flavor) (model : string) (tools : list ToolOffer)
  (st : Conv W) (content : list Block) (w1 : W) :
  create_message (world st) (mkRequest model (system_prompt c) tools (messages st))
    = (Returned content, w1) ->
  (exists later,
      messages (snd (turn c model tools st))
      = (messages st ++ mkMessage "assistant" (to_dicts content) :: later)%list)
  /\ map block_of (to_dicts content) = filter recognised content
  /\ (forallb recognised content = true -> map block_of (to_dicts content) = content).
Proof.
  intros Hc. split; [|split].
  - unfold turn. rewrite Hc.
    destruct (tool_uses_of content) as [|tu tus] eqn:E.
    + exists []. reflexivity.
    + destruct (run_tools c w1 (db st) (tu :: tus)) as [[blocks w2] db2]. simpl.
      eexists. rewrite <- app_assoc. reflexivity.
  - apply to_dicts_roundtrip.
  - intros Hall. rewrite to_dicts_roundtrip. clear Hc.
    induction content as [|b content IH]; simpl in *; [reflexivity|].
    apply andb_prop in Hall as [Hb Hall]. rewrite Hb. f_equal. auto.
Qed.

(** *** Tool faults *)

Lemma run_tools_app (c : Flavor) (pre post : list ToolUseReq) (w : W) (db : ChatDatabase.Db) :
  run_tools c w db (pre ++ post) =
  let '(b1, w1, db1) := run_tools c w db pre in
  let '(b2, w2, db2) := run_tools c w1 db1 post in
  ((b1 ++ b2)%list, w2, db2).
Proof.
  revert w db; induction pre as [|tu pre IH]; intros w db; simpl.
  - destruct (run_tools c w db post) as [[b2 w2] db2]; reflexivity.
  - destruct (dispatch c w db tu) as [[text w1] db1].
    rewrite IH.
    destruct (run_tools c w1 db1 pre) as [[b1 w1'] db1'].
    destruct (run_tools c w1' db1' post) as [[b2 w2] db2]; reflexivity.
Qed.

Lemma loop_step (c : Flavor) (model : string) (tools : list ToolOffer)
  (k d : nat) (st : Conv W) :
  loop c model tools (S k) d st =
  match turn c model tools st with
  | (Continue, st') => loop c model tools k (S d) st'
  | (Return final_text, st') => mkRun final_text (S d) st'
  end.
Proof. reflexivity. Qed.

(** C3.  When the call for one tool-use block of a reply raises [e], the
    dispatch of that block does not raise: it yields the text
    [Error executing tool '<name>': <e>] (and, in the Slack client, a
    [tool_calls] row with status [error]); the remaining blocks are still
    dispatched, the text goes into the tool-result block at the block's
    position, the turn ends in [Continue], and the loop goes on with its next
    pass. *)
Theorem tool_fault_contained (c : Flavor) (model : string) (tools : list ToolOffer)
  (st : Conv W) (content : list Block) (w1 : W)
  (pre post : list ToolUseReq) (tu : ToolUseReq)
  (bs : list ContentBlock) (w2 w3 : W) (db2 : ChatDatabase.Db) (e : string) :
  create_message (world st) (mkRequest model (system_prompt c) tools (messages st))
    = (Returned content, w1) ->
  tool_uses_of content = (pre ++ tu :: post)%list ->
  run_tools c w1 (db st) pre = (bs, w2, db2) ->
  call_tool w2 (tu_name tu) (tu_input tu) = (Raised e, w3) ->
  let result_text := "Error executing tool '" ++ tu_name tu ++ "': " ++ e in
  let db3 :=
    match c with
    | Console => db2
    | Slack sid =>
        ChatDatabase.save_tool_call db2 sid (tu_name tu) (tu_input tu) e "error"
    end in
  dispatch c w2 db2 tu = (result_text, w3, db3)
  /\ exists (rest : list ContentBlock) (w4 : W) (db4 : ChatDatabase.Db),
       run_tools c w3 db3 post = (rest, w4, db4)
       /\ turn c model tools st =
            (Continue,
             mkConv w4
                    (messages st ++
                     [mkMessage "assistant" (to_dicts content);
                      mkMessage "user"
                        (bs ++ ToolResult (tu_id tu) [Text result_text] :: rest)])
                    db4)
       /\ forall k d,
            loop c model tools (S k) d st =
            loop c model tools k (S d)
                 (mkConv w4
                    (messages st ++
                     [mkMessage "assistant" (to_dicts content);
                      mkMessage "user"
                        (bs ++ ToolResult (tu_id tu) [Text result_text] :: rest)])
                    db4).
Proof.
  intros Hc Hsplit Hpre Hraise result_text db3.
  assert (Hd : dispatch c w2 db2 tu = (result_text, w3, db3)).
  { unfold dispatch. rewrite Hraise. reflexivity. }
  split; [exact Hd|].
  destruct (run_tools c w3 db3 post) as [[rest w4] db4] eqn:Hpost.
  exists rest, w4, db4. split; [reflexivity|].
  assert (Ht : turn c model tools st =
            (Continue,
             mkConv w4
                    (messages st ++
                     [mkMessage "assistant" (to_dicts content);
                      mkMessage "user"
                        (bs ++ ToolResult (tu_id tu) [Text result_text] :: rest)])
                    db4)).
  { rewrite (turn_tool_round c model tools st Hc)
      by (rewrite Hsplit; destruct pre; discriminate).
    rewrite Hsplit, run_tools_app, Hpre. simpl.
    rewrite Hd, Hpost. reflexivity. }
  split; [exact Ht|].
  intros k d. rewrite loop_step, Ht. reflexivity.
Qed.

(** *** Termination of the loop *)

Lemma loop_exhausts (c : Flavor) (model : string) (tools : list ToolOffer) :
  (forall w req, exists content w',
      create_message w req = (Returned content, w') /\ tool_uses_of content <> []) ->
  forall (n d : nat) (st : Conv W),
    answer (loop c model tools n d st) = "Conversation exceeded maximum turns."
    /\ rounds (loop c model tools n d st) = d + n
    /\ List.length (messages (final (loop c model tools n d st)))
       = List.length (messages st) + 2 * n.
Proof.
  intros Hall n; induction n as [|n IH]; intros d st.
  - simpl. repeat split; lia.
  - rewrite loop_step.
    destruct (Hall (world st) (mkRequest model (system_prompt c) tools (messages st)))
      as (content & w1 & Hc & Hne).
    rewrite (turn_tool_round c model tools st Hc Hne).
    match goal with |- context [loop c model tools n (S d) ?st'] =>
      destruct (IH (S d) st') as (Ha & Hr & Hl); rewrite Ha, Hr, Hl
    end.
    simpl messages. rewrite length_app. simpl. repeat split; lia.
Qed.

(** C4.  If every call of the completion service returns a reply with at
    least one tool-use block, the loop makes exactly [MAX_TURNS] passes
    (two messages appended in each) and returns the exhaustion text; so
    [process_query] returns it after 100 rounds and [process_with_context]
    after 10, and neither raises once the tool listing has returned. *)
Theorem exhaustion_after_max_turns (model : string) :
  (forall w req, exists content w',
      create_message w req = (Returned content, w') /\ tool_uses_of content <> []) ->
  (forall c tools (st : Conv W),
      let r := loop c model tools (MAX_TURNS c) 0 st in
      answer r = "Conversation exceeded maximum turns."
      /\ rounds r = MAX_TURNS c
      /\ List.length (messages (final r)) = List.length (messages st) + 2 * MAX_TURNS c)
  /\ (forall w query tl w1,
        list_tools w = (Returned tl, w1) ->
        exists r, process_query model w query = Returned r
                  /\ answer r = "Conversation exceeded maximum turns."
                  /\ rounds r = 100)
  /\ (forall w db0 query sid tl w1,
        list_tools w = (Returned tl, w1) ->
        exists r, process_with_context model w db0 query sid = Returned r
                  /\ answer r = "Conversation exceeded maximum turns."
                  /\ rounds r = 10).
Proof.
  intros Hall. split; [|split].
  - intros c tools st r. subst r.
    destruct (loop_exhausts c model tools Hall (MAX_TURNS c) 0 st) as (Ha & Hr & Hl).
    repeat split; assumption.
  - intros w query tl w1 Hl. unfold process_query. rewrite Hl.
    eexists; split; [reflexivity|].
    match goal with |- context [loop ?c ?m ?t ?n ?d ?st] =>
      destruct (loop_exhausts c m t Hall n d st) as (Ha & Hr & _) end.
    split; [exact Ha | exact Hr].
  - intros w db0 query sid tl w1 Hl. unfold process_with_context. rewrite Hl.
    eexists; split; [reflexivity|].
    match goal with |- context [loop ?c ?m ?t ?n ?d ?st] =>
      destruct (loop_exhausts c m t Hall n d st) as (Ha & Hr & _) end.
    split; [exact Ha | exact Hr].
Qed.

(** C9, amended.  When the first reply holds no tool-use block, the loop
    ends after one pass with the assistant message appended, and returns the
    reply's texts joined by newlines and stripped; when the reply holds no
    text block either it returns the client's placeholder, which is
    [(No text returned.)] in the console client and [(No response)] in the
    Slack client. *)
Theorem final_answer_first_round (c : Flavor) (model : string) (tools : list ToolOffer)
  (st : Conv W) (content : list Block) (w1 : W) :
  create_message (world st) (mkRequest model (system_prompt c) tools (messages st))
    = (Returned content, w1) ->
  tool_uses_of content = [] ->
  let final_text :=
    match text_blocks_of content with
    | [] => no_text c
    | _ :: _ => Py.strip (Py.join Py.nl (text_blocks_of content))
    end in
  let r := loop c model tools (MAX_TURNS c) 0 st in
  answer r = final_text
  /\ rounds r = 1
  /\ messages (final r) = (messages st ++ [mkMessage "assistant" (to_dicts content)])%list
  /\ world (final r) = w1
  /\ db (final r) = match c with
                    | Console => db st
                    | Slack sid => ChatDatabase.save_message (db st) sid "assistant" final_text
                    end
  /\ no_text Console = "(No text returned.)"
  /\ (forall sid, no_text (Slack sid) = "(No response)").
Proof.
  intros Hc Hno final_text r.
  assert (Hr : r = mkRun final_text 1
                 (mkConv w1 (messages st ++ [mkMessage "assistant" (to_dicts content)])
                    match c with
                    | Console => db st
                    | Slack sid => ChatDatabase.save_message (db st) sid "assistant" final_text
                    end)).
  { subst r. replace (MAX_TURNS c) with (S (pred (MAX_TURNS c)))
      by (destruct c; reflexivity).
    rewrite loop_step. unfold turn. rewrite Hc, Hno. subst final_text.
    destruct (text_blocks_of content); reflexivity. }
  rewrite Hr. repeat split.
Qed.

(** *** The size of a tool result *)

(** Outside the case of a first part with a non-empty text, the text of a
    returned result is at most [CAP] characters long. *)
Lemma result_text_capped_elsewhere (r : McpResult) :
  match r with
  | PartList (p :: _) =>
      match part_text p with Some t => Py.truthy t | None => false end
  | _ => false
  end = false ->
  String.length (result_text_of r) <= CAP.
Proof.
  destruct r as [[|p rest]|s]; intros Hcase; unfold result_text_of.
  - apply PyFacts.take_length.
  - cbv beta iota in Hcase.
    destruct (part_text p) as [t|]; [rewrite Hcase|]; apply PyFacts.take_length.
  - apply PyFacts.take_length.
Qed.

End OnAnyServices.

(** C2 at its failing input: a tool that returns a list whose first part
    has a text of 10001 characters.  In a Slack turn the whole text goes
    into the tool-result block and into the [tool_calls] row. *)
Theorem first_part_text_exceeds_cap :
  let big := Demo.flood (S CAP) in
  let reply := [ToolUseBlock "toolu_01" "flood" (Json.Obj [])] in
  let st := mkConv [Returned reply] [mkMessage "user" [Text "q"]] ChatDatabase.empty in
  let st' := snd (@turn _ Demo.scripted (Slack "s1") "m" [] st) in
  Z.of_nat (String.length big) = 10001%Z
  /\ @result_text_of _ Demo.scripted (PartList [mkPart (Some big) "TextContent"]) = big
  /\ messages st' =
       [ mkMessage "user" [Text "q"];
         mkMessage "assistant" [ToolUse "toolu_01" "flood" (Json.Obj [])];
         mkMessage "user" [ToolResult "toolu_01" [Text big]] ]
  /\ map ChatDatabase.t_output (ChatDatabase.tool_calls (db st')) = [big].
Proof. vm_compute. repeat split. Qed.

(** *** Worked runs *)

Lemma tool_round_results_witness :
  let reply := [ TextBlock "Checking.";
                 ToolUseBlock "toolu_01" "run_terminal_command" (Json.Obj [("command", Json.Str "ls")]);
                 ToolUseBlock "toolu_02" "boom" (Json.Obj []) ] in
  let st := mkConv [Returned reply] [mkMessage "user" [Text "q"]] ChatDatabase.empty in
  exists results w2 db2,
    @turn _ Demo.scripted Console "m" [] st =
      (Continue,
       mkConv w2 (messages st ++ [mkMessage "assistant" (to_dicts reply);
                                  mkMessage "user" results]) db2)
    /\ ids result_id results = ["toolu_01"; "toolu_02"].
Proof.
  intros reply st.
  destruct (@tool_round_results _ Demo.scripted Console "m" [] st reply []
              eq_refl ltac:(discriminate))
    as (results & w2 & db2 & Ht & _ & _ & Hids & _).
  exists results, w2, db2. split; [exact Ht | exact Hids].
Defined.

Lemma tool_fault_contained_witness :
  let tu := mkToolUse "toolu_02" "boom" (Json.Obj []) in
  @call_tool _ Demo.scripted [] "boom" (Json.Obj []) = (Raised "connection lost", [])
  /\ @dispatch _ Demo.scripted (Slack "s1") [] ChatDatabase.empty tu
     = ("Error executing tool 'boom': connection lost", [],
        ChatDatabase.save_tool_call ChatDatabase.empty "s1" "boom" (Json.Obj [])
                                    "connection lost" "error").
Proof.
  intros tu. split; [reflexivity|].
  exact (proj1 (@tool_fault_contained _ Demo.scripted (Slack "s1") "m" []
                  (mkConv [Returned [ToolUseBlock "toolu_02" "boom" (Json.Obj [])]]
                          [mkMessage "user" [Text "q"]] ChatDatabase.empty)
                  [ToolUseBlock "toolu_02" "boom" (Json.Obj [])] []
                  [] [] tu [] [] [] ChatDatabase.empty "connection lost"
                  eq_refl eq_refl eq_refl eq_refl)).
Defined.

Lemma exhaustion_after_max_turns_witness :
  (exists r, @process_query _ Demo.insistent "m" tt "hi" = Returned r
             /\ answer r = "Conversation exceeded maximum turns."
             /\ rounds r = 100)
  /\ (exists r, @process_with_context _ Demo.insistent "m" tt ChatDatabase.empty "hi" "s1"
                = Returned r
                /\ answer r = "Conversation exceeded maximum turns."
                /\ rounds r = 10).
Proof.
  assert (Hall : forall (w : unit) (req : Request), exists content w',
             @create_message _ Demo.insistent w req = (Returned content, w')
             /\ tool_uses_of content <> []).
  { intros [] req. eexists. exists tt. split; [reflexivity | discriminate]. }
  destruct (@exhaustion_after_max_turns _ Demo.insistent "m" Hall) as (_ & Hq & Hs).
  split.
  - exact (Hq tt "hi" Demo.catalog tt eq_refl).
  - exact (Hs tt ChatDatabase.empty "hi" "s1" Demo.catalog tt eq_refl).
Defined.

Lemma assistant_message_appended_witness :
  let reply := [OtherBlock "thinking"; TextBlock "Done."] in
  let st := mkConv [Returned reply] [mkMessage "user" [Text "q"]] ChatDatabase.empty in
  exists later,
    messages (snd (@turn _ Demo.scripted Console "m" [] st))
    = (messages st ++ mkMessage "assistant" [Text "Done."] :: later)%list.
Proof.
  intros reply st.
  exact (proj1 (@assistant_message_appended _ Demo.scripted Console "m" [] st reply []
                  eq_refl)).
Defined.

Lemma final_answer_first_round_witness :
  let reply := [TextBlock " The host runs Linux."; TextBlock "Nothing else to report. "] in
  let st := mkConv [Returned reply] [mkMessage "user" [Text "q"]] ChatDatabase.empty in
  let r := @loop _ Demo.scripted (Slack "s1") "m" [] 10 0 st in
  answer r = "The host runs Linux." ++ Py.nl ++ "Nothing else to report."
  /\ rounds r = 1.
Proof.
  intros reply st r.
  destruct (@final_answer_first_round _ Demo.scripted (Slack "s1") "m" [] st reply []
              eq_refl eq_refl) as (Ha & Hr & _).
  split; [exact Ha | exact Hr].
Defined.

(** C8 as stated fails on a reply with a block that is neither text nor
    tool use: the block is not in the transcript. *)
Lemma other_blocks_are_dropped :
  let reply := [OtherBlock "thinking"; TextBlock "Done."] in
  match @process_query _ Demo.scripted "m" [Returned reply] "hello" with
  | Returned r =>
      messages (final r) =
        [ mkMessage "user" [Text "hello"]; mkMessage "assistant" [Text "Done."] ]
  | Raised _ => False
  end
  /\ List.length (to_dicts reply) = 1
  /\ List.length reply = 2.
Proof. vm_compute. repeat split. Qed.

(** C9 as stated fails on the placeholder: a reply without blocks makes the
    console client return [(No text returned.)] and the Slack client
    [(No response)], neither of which is the text [no textual result]. *)
Lemma placeholder_differs :
  match @process_query _ Demo.scripted "m" [Returned []] "hello" with
  | Returned r =>
      rounds r = 1 /\ answer r = "(No text returned.)" /\ answer r <> "no textual result"
  | Raised _ => False
  end
  /\ match @process_with_context _ Demo.scripted "m" [Returned []] ChatDatabase.empty
             "hello" "s1" with
     | Returned r =>
         rounds r = 1 /\ answer r = "(No response)" /\ answer r <> "no textual result"
     | Raised _ => False
     end.
Proof. vm_compute. repeat split; discriminate. Qed.

End ClientProps.

(** ** Session identifiers *)

Module SessionProps.

Import ChatDatabase.

Example md5_of_empty : Hashlib.md5_hexdigest "" = "d41d8cd98f00b204e9800998ecf8427e".
Proof. vm_compute. reflexivity. Qed.

Example md5_of_abc : Hashlib.md5_hexdigest "abc" = "900150983cd24fb0d6963f7d28e17f72".
Proof. vm_compute. reflexivity. Qed.

Example md5_of_two_blocks :
  Hashlib.md5_hexdigest "aaaaaaaaaaaaaaaaaaaaaaaaaaaaaaaaaaaaaaaaaaaaaaaaaaaaaaaa"
  = "3b0c8ac703f828b04c6c197006d17218".
Proof. vm_compute. reflexivity. Qed.

Lemma split_at_colon (a a' b b' : string) :
  colon_free a = true -> colon_free a' = true ->
  a ++ ":" ++ b = a' ++ ":" ++ b' -> a = a' /\ b = b'.
Proof.
  revert a'; induction a as [|x a IH]; intros [|x' a']; simpl; intros Ha Ha' E.
  - injection E as ->. split; reflexivity.
  - injection E as <- _. discriminate Ha'.
  - injection E as -> _. discriminate Ha.
  - apply andb_prop in Ha as [_ Ha]. apply andb_prop in Ha' as [_ Ha'].
    injection E as -> E. destruct (IH a' Ha Ha' E) as [-> ->]. split; reflexivity.
Qed.

(** C7, amended.  [create_session_id] is the MD5 digest, in hexadecimal,
    of [channel:user:thread], where an absent or empty thread id reads
    [main]; so it returns the same value whenever channel, user and that
    effective thread id agree.  For channel and user ids without a colon the
    digested strings are equal only if channel, user and effective thread id
    are. *)
Theorem session_id_key (c u c' u' : string) (t t' : option string) :
  colon_free c = true -> colon_free u = true ->
  colon_free c' = true -> colon_free u' = true ->
  create_session_id c u t
    = Hashlib.md5_hexdigest (c ++ ":" ++ u ++ ":" ++ Py.or_else t "main")
  /\ (components c u t = components c' u' t'
      <-> c = c' /\ u = u' /\ Py.or_else t "main" = Py.or_else t' "main")
  /\ (c = c' /\ u = u' /\ Py.or_else t "main" = Py.or_else t' "main" ->
      create_session_id c u t = create_session_id c' u' t').
Proof.
  intros Hc Hu Hc' Hu'. split; [reflexivity|]. split; [split|].
  - unfold components. intros E.
    destruct (split_at_colon _ _ _ _ Hc Hc' E) as [-> E'].
    destruct (split_at_colon _ _ _ _ Hu Hu' E') as [-> E''].
    repeat split; assumption.
  - intros (-> & -> & E). unfold components. rewrite E. reflexivity.
  - intros (-> & -> & E). unfold create_session_id, components. rewrite E. reflexivity.
Qed.

Lemma session_id_key_witness :
  colon_free "C024BE91L" = true
  /\ create_session_id "C024BE91L" "U2147483697" (Some "1700000000.000100")
     = Hashlib.md5_hexdigest "C024BE91L:U2147483697:1700000000.000100"
  /\ components "C024BE91L" "U2147483697" (Some "1700000000.000100")
     <> components "C024BE91L" "U2147483697" (Some "1700000000.000200").
Proof.
  destruct (@session_id_key "C024BE91L" "U2147483697" "C024BE91L" "U2147483697"
              (Some "1700000000.000100") (Some "1700000000.000200")
              eq_refl eq_refl eq_refl eq_refl) as (Hid & [Hinj _] & _).
  split; [reflexivity|]. split; [exact Hid|].
  intros E. destruct (Hinj E) as (_ & _ & Ht). discriminate Ht.
Defined.

(** C7 as stated fails: inputs that differ can have the same id.  An
    absent thread id, an empty one and the thread id [main] are not told
    apart, and a colon inside an id moves the boundary between channel and
    user. *)
Lemma session_id_collisions :
  create_session_id "C024BE91L" "U2147483697" None
    = create_session_id "C024BE91L" "U2147483697" (Some "main")
  /\ (None : option string) <> Some "main"
  /\ create_session_id "C024BE91L" "U2147483697" None
     = create_session_id "C024BE91L" "U2147483697" (Some "")
  /\ create_session_id "C1:U1" "x" None = create_session_id "C1" "U1:x" None
  /\ "C1:U1" <> "C1".
Proof. vm_compute. repeat split; discriminate. Qed.

End SessionProps.

(** ** More on the terminal tool *)

Module TerminalMore.

Import Terminal.

Lemma append_assoc (a b c : string) : (a ++ b) ++ c = a ++ (b ++ c).
Proof. induction a as [|x a IH]; simpl; [reflexivity | rewrite IH; reflexivity]. Qed.

Lemma split_go_blank (s : string) : Py.all_space s = true -> Py.split_go None s = [].
Proof.
  induction s as [|c s IH]; simpl; [reflexivity|].
  intros H; apply andb_prop in H as [Hc Hs]. rewrite Hc. auto.
Qed.

Lemma blank_is_no_cd (s : string) : Py.all_space s = true -> Py.startswith "cd " s = false.
Proof.
  destruct s as [|a s]; [reflexivity|].
  cbn [Py.all_space Py.startswith].
  intros H; apply andb_prop in H as [Ha _].
  destruct (Ascii.eqb_spec "c" a) as [<-|_]; [|reflexivity].
  vm_compute in Ha. discriminate Ha.
Qed.

Lemma or_else_again (wd : option string) (cur : string) :
  Py.or_else (Some (Py.or_else wd cur)) cur = Py.or_else wd cur.
Proof.
  destruct wd as [s|]; simpl.
  - destruct (Py.truthy s) eqn:E; [rewrite E; reflexivity|].
    destruct (Py.truthy cur); reflexivity.
  - destruct (Py.truthy cur); reflexivity.
Qed.

Section OnAnyHost.

Context {OS : Type} {H : Host OS}.

(** X1.  A command that is no directory change and whose subprocess cannot
    be started or awaited is reported, not raised: the text returned by
    [run_terminal_command] shows return code -1 and the fault under [Error:],
    has no [Output:] section, and the server's directory is unchanged. *)
Theorem subprocess_fault_reported (L : Launcher OS) (os os' : OS) (st : ServerState)
  (command command' e : string) (working_directory : option string) :
  Py.startswith "cd " command = false ->
  translate command = Returned command' ->
  create_subprocess_exec os (get_shell_command ++ [command'])
    (Py.or_else working_directory (current_directory st)) = (Raised e, os') ->
  run_terminal_command os st command working_directory =
  ("Command: " ++ command ++ Py.nl
   ++ "Working Directory: " ++ Py.or_else working_directory (current_directory st) ++ Py.nl
   ++ "Return Code: -1" ++ Py.nl ++ Py.nl
   ++ "Error:" ++ Py.nl ++ "Error executing command: " ++ e ++ Py.nl,
   os', st).
Proof.
  intros Hcd Ht Hl. unfold run_terminal_command, run_command.
  rewrite Hcd, Ht, or_else_again. unfold launch. rewrite Hl.
  unfold format_output, fault_result. cbn [stdout stderr return_code new_cwd andb].
  change (Py.truthy "") with false.
  change (Py.truthy ("Error executing command: " ++ e)) with true.
  change (Py.str_of_int (-1)) with "-1". cbv iota.
  rewrite !append_assoc. reflexivity.
Qed.

(** X2.  Off Windows a command that is no directory change goes to
    [/bin/bash -c] exactly as written, in the effective working directory;
    the result repeats what the process gave and [new_cwd] is that same
    directory, whatever the command did. *)
Theorem posix_command_verbatim (L : Launcher OS) (os os' : OS) (cur command : string)
  (cwd : option string) (p : Completed) :
  String.eqb system "Windows" = false ->
  Py.startswith "cd " command = false ->
  create_subprocess_exec os ["/bin/bash"; "-c"; command] (Py.or_else cwd cur)
    = (Returned p, os') ->
  run_command os cur command cwd =
  (mkResult (proc_stdout p) (proc_stderr p) (proc_returncode p) (Py.or_else cwd cur), os').
Proof.
  intros Hw Hcd Hl. unfold run_command, translate, get_shell_command, launch.
  rewrite Hcd, Hw.
  destruct (String.eqb system "Darwin"); simpl; rewrite Hl; reflexivity.
Qed.

(** X3.  On Windows a blank command never reaches a subprocess: looking
    up its first word fails, and the result is return code -1 with the
    fault in [stderr], the world untouched, under every launcher. *)
Theorem windows_blank_command (L : Launcher OS) (os : OS) (cur command : string)
  (cwd : option string) :
  String.eqb system "Windows" = true ->
  Py.all_space command = true ->
  forall L' : Launcher OS,
    @run_command OS H L' os cur command cwd =
    (mkResult "" "Error executing command: list index out of range" (-1)
              (Py.or_else cwd cur), os).
Proof.
  intros Hw Hb L'. unfold run_command, translate.
  rewrite (blank_is_no_cd _ Hb), Hw. unfold Py.split.
  rewrite (split_go_blank _ Hb). reflexivity.
Qed.

(** X4.  On Windows a command whose first word is a key of [command_map]
    is run by [cmd.exe /c] with that word replaced and the words rejoined by
    single blanks. *)
Theorem windows_alias_translated (L : Launcher OS) (os : OS) (cur command : string)
  (cwd : option string) (w w' : string) (ws : list string) :
  String.eqb system "Windows" = true ->
  Py.startswith "cd " command = false ->
  Py.split command = w :: ws ->
  lookup w command_map = Some w' ->
  run_command os cur command cwd =
  launch os ["cmd.exe"; "/c"; Py.join " " (w' :: ws)] (Py.or_else cwd cur).
Proof.
  intros Hw Hcd Hs Hl. unfold run_command, translate, get_shell_command.
  rewrite Hcd, Hw, Hs, Hl.
  destruct (String.eqb_spec system "Darwin") as [E|_]; [|reflexivity].
  rewrite E in Hw. discriminate Hw.
Qed.

(** X5.  A successful directory change is remembered: after
    [run_terminal_command] has accepted [cd <dir>] with no working directory
    given, the next command that is no directory change and gives none
    either is launched in the absolute path of that directory, and leaves
    the remembered directory where it is. *)
Theorem cd_then_command_runs_there (L : Launcher OS) (os : OS) (st : ServerState)
  (c1 c2 c2' : string) :
  Py.startswith "cd " c1 = true ->
  let arg := Py.strip (Py.drop 3 c1) in
  let target := if isabs arg then arg else path_join (current_directory st) arg in
  path_exists os target && isdir os target = true ->
  Py.startswith "cd " c2 = false ->
  translate c2 = Returned c2' ->
  let '(_, os1, st1) := run_terminal_command os st c1 None in
  let '(_, os2, st2) := run_terminal_command os1 st1 c2 None in
  os1 = os
  /\ current_directory st1 = abspath target
  /\ os2 = snd (create_subprocess_exec os (get_shell_command ++ [c2']) (abspath target))
  /\ st2 = st1.
Proof.
  intros Hcd arg target Hdir Hcd2 Ht.
  unfold run_terminal_command at 1.
  rewrite TerminalProps.run_command_cd by exact Hcd. cbv zeta.
  rewrite or_else_again. change (Py.or_else None (current_directory st))
    with (current_directory st).
  fold arg. fold target. rewrite Hdir. cbn [return_code new_cwd].
  rewrite Hcd. cbn [andb Z.eqb].
  unfold run_terminal_command, run_command. rewrite Hcd2, Ht.
  cbn [current_directory andb].
  rewrite or_else_again. cbn [Py.or_else]. unfold launch.
  destruct (create_subprocess_exec os (get_shell_command ++ [c2']) (abspath target))
    as [[p|e] os2]; cbn [snd]; repeat split.
Qed.

End OnAnyHost.

Section Files.

Import TerminalFiles.

Context {OS : Type} {H : Host OS} {F : Files OS}.


End Files.

Lemma subprocess_fault_reported_witness :
  fst (fst (@run_terminal_command _ (Posix.host "/srv") Posix.broken_launcher
              Posix.demo_fs (mkServer "/srv/app") "ls -la" None))
  = "Command: ls -la" ++ Py.nl ++ "Working Directory: /srv/app" ++ Py.nl
    ++ "Return Code: -1" ++ Py.nl ++ Py.nl
    ++ "Error:" ++ Py.nl
    ++ "Error executing command: [Errno 2] No such file or directory" ++ Py.nl.
Proof.
  exact (f_equal (fun x => fst (fst x))
           (@subprocess_fault_reported _ (Posix.host "/srv") Posix.broken_launcher
              Posix.demo_fs Posix.demo_fs (mkServer "/srv/app") "ls -la" "ls -la"
              "[Errno 2] No such file or directory" None eq_refl eq_refl eq_refl)).
Defined.

Lemma posix_command_verbatim_witness :
  fst (@run_command _ (Posix.host "/srv") Posix.echo_launcher Posix.demo_fs
         "/srv/app" "ls && cd /tmp" None)
  = mkResult "/bin/bash -c ls && cd /tmp" "" 0 "/srv/app".
Proof.
  exact (f_equal fst
           (@posix_command_verbatim _ (Posix.host "/srv") Posix.echo_launcher
              Posix.demo_fs Posix.demo_fs "/srv/app" "ls && cd /tmp" None
              (mkCompleted "/bin/bash -c ls && cd /tmp" "" 0) eq_refl eq_refl eq_refl)).
Defined.

Lemma windows_blank_command_witness :
  @run_command _ (Hosts.windows "/srv") Posix.echo_launcher Posix.demo_fs "/srv/app" "  " None
  = (mkResult "" "Error executing command: list index out of range" (-1) "/srv/app",
     Posix.demo_fs).
Proof.
  exact (@windows_blank_command _ (Hosts.windows "/srv") Posix.echo_launcher
           Posix.demo_fs "/srv/app" "  " None eq_refl eq_refl Posix.echo_launcher).
Defined.

Lemma windows_alias_translated_witness :
  fst (@run_command _ (Hosts.windows "/srv") Posix.echo_launcher Posix.demo_fs
         "/srv/app" "ls   -la" None)
  = mkResult "cmd.exe /c dir -la" "" 0 "/srv/app".
Proof.
  exact (f_equal fst
           (@windows_alias_translated _ (Hosts.windows "/srv") Posix.echo_launcher
              Posix.demo_fs "/srv/app" "ls   -la" None "ls" "dir" ["-la"]
              eq_refl eq_refl eq_refl eq_refl)).
Defined.

Lemma cd_then_command_runs_there_witness :
  let '(_, os1, st1) :=
    @run_terminal_command _ (Posix.host "/srv") Posix.echo_launcher
      Posix.demo_fs (mkServer "/srv/app") "cd sub" None in
  let '(_, os2, st2) :=
    @run_terminal_command _ (Posix.host "/srv") Posix.echo_launcher os1 st1 "pwd" None in
  current_directory st1 = "/srv/app/sub" /\ st2 = st1.
Proof.
  pose proof (@cd_then_command_runs_there _ (Posix.host "/srv") Posix.echo_launcher
                Posix.demo_fs (mkServer "/srv/app") "cd sub" "pwd" "pwd"
                eq_refl eq_refl eq_refl eq_refl) as P.
  cbv in P. cbv. destruct P as (_ & P1 & _ & P2). split; [exact P1 | exact P2].
Defined.


End TerminalMore.

(** ** More on the chat database *)

Module DatabaseProps.

Import ChatDatabase.

Local Open Scope list_scope.

Lemma skipn_snoc {A} (n : nat) (l : list A) (x : A) :
  n <= List.length l -> skipn n (l ++ [x]) = skipn n l ++ [x].
Proof.
  intros Hn. rewrite skipn_app.
  replace (n - List.length l) with 0 by lia. reflexivity.
Qed.

Lemma history_after_save (db : Db) (sid role content : string) (n : nat) :
  get_session_history (save_message db sid role content) sid (S n)
  = get_session_history db sid n ++ [mkMessageRow sid role content].
Proof.
  unfold get_session_history, save_message. cbn [messages].
  rewrite filter_app. cbn [filter m_session_id]. rewrite String.eqb_refl.
  rewrite length_app. cbn [List.length].
  set (rows := filter _ (messages db)).
  replace (List.length rows + 1 - S n) with (List.length rows - n) by lia.
  apply skipn_snoc. lia.
Qed.



(** X9.  Sessions do not see each other: saving a message under one
    session id, writing a tool call or upserting a session leaves the history
    of every other session id as it was. *)
Theorem history_of_other_session (db : Db) (sid other role content : string)
  (limit : nat) :
  other <> sid ->
  get_session_history (save_message db sid role content) other limit
    = get_session_history db other limit
  /\ (forall tool input output status,
        get_session_history (save_tool_call db sid tool input output status) other limit
        = get_session_history db other limit)
  /\ (forall channel user thread,
        get_session_history (upsert_session db sid channel user thread) other limit
        = get_session_history db other limit).
Proof.
  intros Hne. split; [|split; intros; reflexivity].
  unfold get_session_history, save_message. cbn [messages].
  rewrite filter_app. cbn [filter m_session_id].
  destruct (String.eqb_spec sid other) as [E|_]; [congruence|].
  rewrite app_nil_r. reflexivity.
Qed.

Lemma filter_filter_neg {A} (f : A -> bool) (l : list A) :
  filter f (filter (fun x => negb (f x)) l) = [].
Proof.
  induction l as [|x l IH]; simpl; [reflexivity|].
  destruct (f x) eqn:E; simpl; [exact IH | rewrite E; exact IH].
Qed.

Lemma filter_idem {A} (f : A -> bool) (l : list A) :
  filter f (filter f l) = filter f l.
Proof.
  induction l as [|x l IH]; simpl; [reflexivity|].
  destruct (f x) eqn:E; simpl; [rewrite E, IH; reflexivity | exact IH].
Qed.


Lemma history_of_other_session_witness :
  "s2" <> "s1"
  /\ get_session_history (save_message empty "s1" "user" "hello") "s2" 5 = [].
Proof.
  assert (Hne : "s2" <> "s1") by discriminate.
  split; [exact Hne|].
  exact (proj1 (@history_of_other_session empty "s1" "s2" "user" "hello" 5 Hne)).
Defined.

End DatabaseProps.

(** ** More on the conversation loop *)

Module ClientMore.

Import Client.

Section OnAnyServices.

Context {W : Type} {Svc : Services W}.

(** The three ways a pass through the loop body can go. *)
Lemma turn_cases (c : Flavor) (model : string) (tools : list ToolOffer) (st : Conv W) :
  (exists e w',
      create_message (world st) (mkRequest model (system_prompt c) tools (messages st))
        = (Raised e, w')
      /\ turn c model tools st
         = (Return (completion_fault c e), mkConv w' (messages st) (db st)))
  \/ (exists content w1,
        create_message (world st) (mkRequest model (system_prompt c) tools (messages st))
          = (Returned content, w1)
        /\ tool_uses_of content <> []
        /\ turn c model tools st =
           (Continue,
            mkConv (snd (fst (run_tools c w1 (db st) (tool_uses_of content))))
                   (messages st ++
                    [mkMessage "assistant" (to_dicts content);
                     mkMessage "user"
                       (fst (fst (run_tools c w1 (db st) (tool_uses_of content))))])%list
                   (snd (run_tools c w1 (db st) (tool_uses_of content)))))
  \/ (exists content w1 final_text,
        create_message (world st) (mkRequest model (system_prompt c) tools (messages st))
          = (Returned content, w1)
        /\ tool_uses_of content = []
        /\ turn c model tools st =
           (Return final_text,
            mkConv w1 (messages st ++ [mkMessage "assistant" (to_dicts content)])%list
                   match c with
                   | Console => db st
                   | Slack sid =>
                       ChatDatabase.save_message (db st) sid "assistant" final_text
                   end)).
Proof.
  destruct (create_message (world st)
              (mkRequest model (system_prompt c) tools (messages st)))
    as [[content|e] w1] eqn:Hc.
  - destruct (tool_uses_of content) as [|tu tus] eqn:Htu.
    + right; right. eexists content, w1, _. split; [reflexivity|]. split; [exact Htu|].
      unfold turn. rewrite Hc, Htu. reflexivity.
    + right; left. exists content, w1. split; [reflexivity|].
      split; [rewrite Htu; discriminate|].
      apply ClientProps.turn_tool_round; [exact Hc | rewrite Htu; discriminate].
  - left. exists e, w1. split; [reflexivity|]. unfold turn. rewrite Hc. reflexivity.
Qed.

(** X11.  A fault of the completion service ends the run at once: the
    loop returns the fault text of the client, counts the pass, appends
    nothing to the transcript and writes nothing to the database. *)
Theorem completion_fault_ends_run (c : Flavor) (model : string) (tools : list ToolOffer)
  (st : Conv W) (e : string) (w' : W) (k d : nat) :
  create_message (world st) (mkRequest model (system_prompt c) tools (messages st))
    = (Raised e, w') ->
  loop c model tools (S k) d st
    = mkRun match c with
            | Console => "Error calling Claude: " ++ e
            | Slack _ => " Error: " ++ e
            end
            (S d) (mkConv w' (messages st) (db st)).
Proof.
  intros Hc. rewrite ClientProps.loop_step. unfold turn. rewrite Hc.
  destruct c; reflexivity.
Qed.


(** *** Bounds *)

Lemma loop_bounds (c : Flavor) (model : string) (tools : list ToolOffer) :
  forall (n d : nat) (st : Conv W),
    d <= rounds (loop c model tools n d st)
    /\ rounds (loop c model tools n d st) <= d + n
    /\ (n <> 0 -> d < rounds (loop c model tools n d st))
    /\ List.length (messages (final (loop c model tools n d st)))
       <= List.length (messages st) + 2 * (rounds (loop c model tools n d st) - d).
Proof.
  induction n as [|n IH]; intros d st.
  - simpl. repeat split; lia.
  - rewrite ClientProps.loop_step.
    destruct (turn_cases c model tools st)
      as [(e & w' & _ & ->) | [(content & w1 & _ & _ & ->) | (content & w1 & t & _ & _ & ->)]].
    + cbn [rounds final messages]. repeat split; lia.
    + match goal with |- context [loop c model tools n (S d) ?st'] =>
        destruct (IH (S d) st') as (H1 & H2 & _ & H4); revert H4
      end.
      cbn [messages]. rewrite !length_app. cbn [List.length]. intros H4.
      repeat split; lia.
    + cbn [rounds final messages]. rewrite length_app. cbn [List.length].
      repeat split; lia.
Qed.

(** X13.  Whatever the completion service and the tools do, one
    invocation makes at least one and at most [MAX_TURNS] completion calls
    (100 in the console client, 10 in the Slack client), and the transcript
    grows by at most two messages per call. *)
Theorem rounds_within_budget (c : Flavor) (model : string) (tools : list ToolOffer)
  (st : Conv W) :
  let r := loop c model tools (MAX_TURNS c) 0 st in
  1 <= rounds r
  /\ rounds r <= MAX_TURNS c
  /\ MAX_TURNS c = match c with Console => 100 | Slack _ => 10 end
  /\ List.length (messages (final r)) <= List.length (messages st) + 2 * rounds r.
Proof.
  intros r. subst r.
  destruct (loop_bounds c model tools (MAX_TURNS c) 0 st) as (_ & H2 & H3 & H4).
  assert (MAX_TURNS c <> 0) by (destruct c; discriminate).
  repeat split; lia.
Qed.

(** *** The transcript *)

Lemma to_dicts_reply_entries (content : list Block) :
  forallb Transcript.is_reply_entry (to_dicts content) = true.
Proof.
  induction content as [|b content IH]; [reflexivity|].
  destruct b; simpl; exact IH.
Qed.

Lemma shape_result_entries (results : list ContentBlock) (tus : list ToolUseReq) :
  Forall2 (fun r tu => exists text, r = ToolResult (tu_id tu) [Text text]) results tus ->
  forallb Transcript.is_result_entry results = true.
Proof. induction 1 as [|r tu rs tus [text ->] _ IH]; simpl; auto. Qed.

Lemma same_ids_refl (l : list string) : Transcript.same_ids l l = true.
Proof. induction l as [|x l IH]; simpl; [reflexivity | rewrite String.eqb_refl; exact IH]. Qed.

Lemma well_paired_round (content : list Block) (results : list ContentBlock)
  (rest : list Message) :
  tool_uses_of content <> [] ->
  Forall2 (fun r tu => exists text, r = ToolResult (tu_id tu) [Text text])
          results (tool_uses_of content) ->
  Transcript.well_paired
    (mkMessage "assistant" (to_dicts content) :: mkMessage "user" results :: rest)
  = Transcript.well_paired rest.
Proof.
  intros Hne HF. cbn [Transcript.well_paired role Client.content].
  rewrite to_dicts_reply_entries, (shape_result_entries HF).
  rewrite (ClientProps.shape_ids HF), ClientProps.use_ids_to_dicts, same_ids_refl.
  destruct (map tu_id (tool_uses_of content)) eqn:E.
  - destruct (tool_uses_of content); [congruence | discriminate E].
  - reflexivity.
Qed.

Lemma well_paired_answer (content : list Block) :
  tool_uses_of content = [] ->
  Transcript.well_paired [mkMessage "assistant" (to_dicts content)] = true.
Proof.
  intros Hno. cbn [Transcript.well_paired role Client.content].
  rewrite to_dicts_reply_entries, ClientProps.use_ids_to_dicts, Hno. reflexivity.
Qed.

Lemma loop_transcript (c : Flavor) (model : string) (tools : list ToolOffer) :
  forall (n d : nat) (st : Conv W),
    exists appended,
      messages (final (loop c model tools n d st)) = (messages st ++ appended)%list
      /\ Transcript.well_paired appended = true.
Proof.
  induction n as [|n IH]; intros d st.
  - exists []. simpl. rewrite app_nil_r. split; reflexivity.
  - rewrite ClientProps.loop_step.
    destruct (turn_cases c model tools st)
      as [(e & w' & _ & ->) | [(content & w1 & _ & Hne & ->) | (content & w1 & t & _ & Hno & ->)]].
    + exists []. cbn [final messages]. rewrite app_nil_r. split; reflexivity.
    + match goal with |- context [loop c model tools n (S d) ?st'] =>
        destruct (IH (S d) st') as (appended & -> & Hwp)
      end.
      cbn [messages]. rewrite <- app_assoc. eexists. split; [reflexivity|].
      cbn [app]. rewrite well_paired_round; [exact Hwp | exact Hne |].
      apply ClientProps.run_tools_shape.
    + eexists. cbn [final messages]. split; [reflexivity|].
      apply well_paired_answer. exact Hno.
Qed.

(** X14.  The loop only ever appends to the message list, and what it
    appends is well paired whatever the services answer: assistant messages
    of text and tool-use entries, each one that asks for tools followed at
    once by a user message of tool results with the same ids in the same
    order, and an assistant message without tool use only at the very end. *)
Theorem transcript_well_paired (c : Flavor) (model : string) (tools : list ToolOffer)
  (st : Conv W) :
  exists appended,
    messages (final (loop c model tools (MAX_TURNS c) 0 st))
      = (messages st ++ appended)%list
    /\ Transcript.well_paired appended = true.
Proof. apply loop_transcript. Qed.

(** *** What reaches the database *)

Lemma console_tools_keep_db (tus : list ToolUseReq) (w : W) (db : ChatDatabase.Db) :
  snd (run_tools Console w db tus) = db.
Proof.
  revert w db; induction tus as [|tu tus IH]; intros w db; [reflexivity|].
  cbn [run_tools]. unfold dispatch.
  destruct (call_tool w (tu_name tu) (tu_input tu)) as [[r|e] w1];
    specialize (IH w1 db);
    destruct (run_tools Console w1 db tus) as [[bs w2] db2]; exact IH.
Qed.

Lemma console_loop_keeps_db (model : string) (tools : list ToolOffer) :
  forall (n d : nat) (st : Conv W), db (final (loop Console model tools n d st)) = db st.
Proof.
  induction n as [|n IH]; intros d st; [reflexivity|].
  rewrite ClientProps.loop_step.
  destruct (turn_cases Console model tools st)
    as [(e & w' & _ & ->) | [(content & w1 & _ & _ & ->) | (content & w1 & t & _ & _ & ->)]];
    try reflexivity.
  rewrite IH. cbn [db]. apply console_tools_keep_db.
Qed.


Lemma slack_tools_log (sid : string) (tus : list ToolUseReq) (w : W)
  (db : ChatDatabase.Db) :
  exists rows,
    ChatDatabase.tool_calls (snd (run_tools (Slack sid) w db tus))
      = (ChatDatabase.tool_calls db ++ rows)%list
    /\ map ChatDatabase.t_tool_name rows = map tu_name tus
    /\ map ChatDatabase.t_input_params rows = map tu_input tus
    /\ Forall (fun row => ChatDatabase.t_session_id row = sid) rows
    /\ Forall2 (fun row blk =>
                  exists id,
                    (ChatDatabase.t_status row = "success"
                     /\ blk = ToolResult id [Text (ChatDatabase.t_output row)])
                    \/ (ChatDatabase.t_status row = "error"
                        /\ blk = ToolResult id
                                   [Text ("Error executing tool '"
                                          ++ ChatDatabase.t_tool_name row ++ "': "
                                          ++ ChatDatabase.t_output row)]))
               rows (fst (fst (run_tools (Slack sid) w db tus)))
    /\ ChatDatabase.messages (snd (run_tools (Slack sid) w db tus))
       = ChatDatabase.messages db
    /\ ChatDatabase.chat_sessions (snd (run_tools (Slack sid) w db tus))
       = ChatDatabase.chat_sessions db.
Proof.
  revert w db; induction tus as [|tu tus IH]; intros w db.
  - exists []. simpl. rewrite app_nil_r. repeat split; constructor.
  - cbn [run_tools]. unfold dispatch.
    destruct (call_tool w (tu_name tu) (tu_input tu)) as [[r|e] w1].
    + match goal with |- context [run_tools (Slack sid) w1 ?db1 tus] =>
        destruct (IH w1 db1) as (rows & Hr & Hn & Hi & Hs & HF & Hm & Hc);
        destruct (run_tools (Slack sid) w1 db1 tus) as [[bs w2] db2]
      end.
      cbn [fst snd] in *. eexists (_ :: rows).
      rewrite Hr, Hm, Hc. cbn [ChatDatabase.save_tool_call ChatDatabase.tool_calls
                                ChatDatabase.messages ChatDatabase.chat_sessions].
      rewrite <- app_assoc. cbn [app map]. rewrite Hn, Hi.
      repeat split; try reflexivity.
      * constructor; [reflexivity | exact Hs].
      * constructor; [|exact HF]. exists (tu_id tu). left. split; reflexivity.
    + match goal with |- context [run_tools (Slack sid) w1 ?db1 tus] =>
        destruct (IH w1 db1) as (rows & Hr & Hn & Hi & Hs & HF & Hm & Hc);
        destruct (run_tools (Slack sid) w1 db1 tus) as [[bs w2] db2]
      end.
      cbn [fst snd] in *. eexists (_ :: rows).
      rewrite Hr, Hm, Hc. cbn [ChatDatabase.save_tool_call ChatDatabase.tool_calls
                                ChatDatabase.messages ChatDatabase.chat_sessions].
      rewrite <- app_assoc. cbn [app map]. rewrite Hn, Hi.
      repeat split; try reflexivity.
      * constructor; [reflexivity | exact Hs].
      * constructor; [|exact HF]. exists (tu_id tu). right. split; reflexivity.
Qed.

(** X16.  In the Slack client every tool-use block leaves one row in
    [tool_calls], in the order of the blocks, under the session id, with the
    block's tool name and input.  A row with status [success] stores the very
    text sent back in the tool-result block; a row with status [error] stores
    the bare fault, while the block carries it behind
    [Error executing tool '<name>': ].  The messages and sessions tables are
    not touched by a tool round. *)
Theorem slack_tool_calls_logged (sid : string) (tus : list ToolUseReq) (w : W)
  (db : ChatDatabase.Db) :
  exists rows,
    ChatDatabase.tool_calls (snd (run_tools (Slack sid) w db tus))
      = (ChatDatabase.tool_calls db ++ rows)%list
    /\ map ChatDatabase.t_tool_name rows = map tu_name tus
    /\ map ChatDatabase.t_input_params rows = map tu_input tus
    /\ Forall (fun row => ChatDatabase.t_session_id row = sid) rows
    /\ Forall2 (fun row blk =>
                  exists id,
                    (ChatDatabase.t_status row = "success"
                     /\ blk = ToolResult id [Text (ChatDatabase.t_output row)])
                    \/ (ChatDatabase.t_status row = "error"
                        /\ blk = ToolResult id
                                   [Text ("Error executing tool '"
                                          ++ ChatDatabase.t_tool_name row ++ "': "
                                          ++ ChatDatabase.t_output row)]))
               rows (fst (fst (run_tools (Slack sid) w db tus)))
    /\ ChatDatabase.messages (snd (run_tools (Slack sid) w db tus))
       = ChatDatabase.messages db
    /\ ChatDatabase.chat_sessions (snd (run_tools (Slack sid) w db tus))
       = ChatDatabase.chat_sessions db.
Proof. apply slack_tools_log. Qed.

(** X17.  A tool result that came back is cut to 10000 characters
    unless it is a list whose first part has a non-empty text: the text put
    in the tool-result block, which in the Slack client is also the output
    written to [tool_calls], is then at most 10000 characters long. *)
Theorem dispatch_text_capped (c : Flavor) (w w' : W) (db : ChatDatabase.Db)
  (tu : ToolUseReq) (mcp_result : McpResult) :
  call_tool w (tu_name tu) (tu_input tu) = (Returned mcp_result, w') ->
  match mcp_result with
  | PartList (p :: _) =>
      match part_text p with Some t => Py.truthy t | None => false end
  | _ => false
  end = false ->
  let '(result_text, _, db') := dispatch c w db tu in
  (Z.of_nat (String.length result_text) <= 10000)%Z
  /\ match c with
     | Console => db' = db
     | Slack sid =>
         exists row,
           ChatDatabase.tool_calls db' = (ChatDatabase.tool_calls db ++ [row])%list
           /\ ChatDatabase.t_output row = result_text
           /\ ChatDatabase.t_status row = "success"
     end.
Proof.
  intros Hc Hcase. unfold dispatch. rewrite Hc.
  pose proof (ClientProps.result_text_capped_elsewhere mcp_result Hcase) as Hlen.
  split.
  - assert (Z.of_nat CAP = 10000%Z) as <- by (vm_compute; reflexivity).
    apply Nat2Z.inj_le. exact Hlen.
  - destruct c as [|sid]; [reflexivity|].
    eexists. split; [reflexivity|]. split; reflexivity.
Qed.

Lemma slack_loop_messages (sid model : string) (tools : list ToolOffer) :
  forall (n d : nat) (st : Conv W),
    let r := loop (Slack sid) model tools n d st in
    ChatDatabase.chat_sessions (db (final r)) = ChatDatabase.chat_sessions (db st)
    /\ (ChatDatabase.messages (db (final r)) = ChatDatabase.messages (db st)
        \/ ChatDatabase.messages (db (final r))
           = (ChatDatabase.messages (db st)
              ++ [ChatDatabase.mkMessageRow sid "assistant" (answer r)])%list).
Proof.
  induction n as [|n IH]; intros d st.
  - simpl. split; [reflexivity | left; reflexivity].
  - cbv zeta. rewrite ClientProps.loop_step.
    destruct (turn_cases (Slack sid) model tools st)
      as [(e & w' & _ & ->) | [(content & w1 & _ & _ & ->) | (content & w1 & t & _ & _ & ->)]].
    + cbn [final db]. split; [reflexivity | left; reflexivity].
    + match goal with |- context [loop (Slack sid) model tools n (S d) ?st'] =>
        destruct (IH (S d) st') as (Hs & Hm); revert Hs Hm
      end.
      cbv zeta. cbn [db].
      destruct (slack_tools_log sid (tool_uses_of content) w1 (db st))
        as (rows & _ & _ & _ & _ & _ & Hmsg & Hses).
      rewrite Hmsg, Hses. intros Hs Hm. split; assumption.
    + cbn [final db answer ChatDatabase.save_message ChatDatabase.messages
              ChatDatabase.chat_sessions].
      split; [reflexivity | right; reflexivity].
Qed.



End OnAnyServices.

Lemma completion_fault_ends_run_witness :
  answer (@loop _ Demo.scripted (Slack "s1") "m" [] 10 0
            (mkConv [] [mkMessage "user" [Text "q"]] ChatDatabase.empty))
  = " Error: Connection error.".
Proof.
  exact (f_equal (@answer _)
           (@completion_fault_ends_run _ Demo.scripted (Slack "s1") "m" []
              (mkConv [] [mkMessage "user" [Text "q"]] ChatDatabase.empty)
              "Connection error." [] 9 0 eq_refl)).
Defined.


Lemma dispatch_text_capped_witness :
  let '(result_text, _, _) :=
    @dispatch _ Demo.scripted Console [] ChatDatabase.empty
      (mkToolUse "toolu_01" "run_terminal_command" (Json.Obj [])) in
  (Z.of_nat (String.length result_text) <= 10000)%Z.
Proof.
  pose proof (@dispatch_text_capped _ Demo.scripted Console [] [] ChatDatabase.empty
                (mkToolUse "toolu_01" "run_terminal_command" (Json.Obj []))
                (Object "ran run_terminal_command") eq_refl eq_refl) as P.
  destruct (@dispatch _ Demo.scripted Console [] ChatDatabase.empty
              (mkToolUse "toolu_01" "run_terminal_command" (Json.Obj [])))
    as [[result_text w'] db'].
  exact (proj1 P).
Defined.



End ClientMore.

(** ** The Slack event handlers *)

Module SlackBotProps.

Import ChatDatabase Client SlackBot.

Local Open Scope list_scope.

Section OnAnyServices.

Context {W : Type} {Svc : Services W}.

Lemma answer_in_thread_effect (model : string) (bot : Bot W) (channel_id : string)
  (reply_thread : option string) (text session_id : string) :
  let bot' := answer_in_thread model bot channel_id reply_thread text session_id in
  (exists p tail,
      posted bot' = posted bot ++ [p]
      /\ post_channel p = channel_id
      /\ post_thread_ts p = reply_thread
      /\ ChatDatabase.messages (bot_db bot')
         = ChatDatabase.messages (bot_db bot)
           ++ mkMessageRow session_id "user" text :: tail)
  /\ chat_sessions (bot_db bot') = chat_sessions (bot_db bot)
  /\ acked bot' = acked bot.
Proof.
  cbv zeta. unfold answer_in_thread.
  destruct (process_with_context model (bot_world bot) (bot_db bot) text session_id)
    as [r|e] eqn:E; cbn [posted bot_db acked].
  - revert E. unfold process_with_context.
    destruct (list_tools (bot_world bot)) as [[tl|e] w1]; [|discriminate].
    set (tools := _anthropic_tools_from_mcp tl). set (st0 := mkConv w1 _ _).
    intros E.
    assert (Hr : r = loop (Slack session_id) model tools (MAX_TURNS (Slack session_id)) 0 st0)
      by congruence.
    destruct (ClientMore.slack_loop_messages session_id model tools
                (MAX_TURNS (Slack session_id)) 0 st0) as (Hs & Hm).
    cbv zeta in Hs, Hm. rewrite <- Hr in Hs, Hm. subst st0.
    cbn [db save_message ChatDatabase.messages chat_sessions] in Hs, Hm.
    split; [|split; [exact Hs | reflexivity]].
    destruct Hm as [Hm|Hm]; rewrite Hm, <- ?app_assoc;
      eexists _, _; (split; [reflexivity|]); repeat split; reflexivity.
  - split; [|split; reflexivity].
    eexists _, []. split; [reflexivity|]. repeat split; reflexivity.
Qed.

Lemma upsert_row (db : Db) (sid channel user : string) (thread : option string) :
  filter (fun r => String.eqb (s_session_id r) sid)
         (chat_sessions (upsert_session db sid channel user thread))
  = [mkSessionRow sid channel user thread].
Proof.
  unfold upsert_session. cbn [chat_sessions].
  rewrite filter_app. cbn [filter s_session_id]. rewrite String.eqb_refl.
  rewrite (DatabaseProps.filter_filter_neg (fun r => String.eqb (s_session_id r) sid)).
  reflexivity.
Qed.

Lemma message_effect (model : string) (bot : Bot W) (event : Event) :
  let text := match ev_text event with Some t => t | None => "" end in
  let sid := create_session_id (ev_channel event) (ev_user event) (ev_thread_ts event) in
  let bot' := handle_message model bot event in
  if truthy_opt (ev_bot_id event) || negb (Py.truthy text) then bot' = bot
  else
    (exists p tail,
        posted bot' = posted bot ++ [p]
        /\ post_channel p = ev_channel event
        /\ post_thread_ts p = or_opt (ev_thread_ts event) (ev_ts event)
        /\ ChatDatabase.messages (bot_db bot')
           = ChatDatabase.messages (bot_db bot) ++ mkMessageRow sid "user" text :: tail)
    /\ filter (fun r => String.eqb (s_session_id r) sid) (chat_sessions (bot_db bot'))
       = [mkSessionRow sid (ev_channel event) (ev_user event) (ev_thread_ts event)]
    /\ acked bot' = acked bot.
Proof.
  cbv zeta. unfold handle_message.
  destruct (truthy_opt (ev_bot_id event)); [reflexivity|].
  destruct (Py.truthy match ev_text event with Some t => t | None => "" end) eqn:Ht;
    [|reflexivity].
  cbn [orb negb].
  match goal with |- context [answer_in_thread model ?b ?c ?t ?x ?s] =>
    destruct (answer_in_thread_effect model b c t x s) as (Hp & Hs & Ha)
  end.
  cbv zeta in Hp, Hs, Ha. cbn [posted bot_db acked] in Hp, Hs, Ha.
  split; [exact Hp|]. split; [|exact Ha].
  rewrite Hs. apply upsert_row.
Qed.

(** X20.  [handle_message] never answers a bot and never answers an
    empty text: such an event changes nothing.  Any other message event gets
    exactly one post, in the event's channel and in its thread (or under the
    message itself when it is in no thread), whether the conversation
    succeeds or faults; the query is stored under the session id of channel,
    user and thread, for which the sessions table then holds exactly one
    row. *)
Theorem message_gets_one_reply (model : string) (bot : Bot W) (event : Event) :
  let text := match ev_text event with Some t => t | None => "" end in
  let sid := create_session_id (ev_channel event) (ev_user event) (ev_thread_ts event) in
  let bot' := handle_message model bot event in
  if truthy_opt (ev_bot_id event) || negb (Py.truthy text) then bot' = bot
  else
    (exists p tail,
        posted bot' = posted bot ++ [p]
        /\ post_channel p = ev_channel event
        /\ post_thread_ts p = or_opt (ev_thread_ts event) (ev_ts event)
        /\ ChatDatabase.messages (bot_db bot')
           = ChatDatabase.messages (bot_db bot) ++ mkMessageRow sid "user" text :: tail)
    /\ filter (fun r => String.eqb (s_session_id r) sid) (chat_sessions (bot_db bot'))
       = [mkSessionRow sid (ev_channel event) (ev_user event) (ev_thread_ts event)]
    /\ acked bot' = acked bot.
Proof. apply message_effect. Qed.

Lemma mention_effect (model bot_user : string) (bot : Bot W) (event : Event) :
  let text :=
    Py.strip (replace ("<@" ++ bot_user ++ ">") ""
                      match ev_text event with Some t => t | None => "" end) in
  let bot' := handle_mention model bot_user bot event in
  (exists p,
      posted bot' = posted bot ++ [p]
      /\ post_channel p = ev_channel event
      /\ post_thread_ts p = or_opt (ev_thread_ts event) (ev_ts event)
      /\ (Py.truthy text = false -> post_text p = greeting))
  /\ (Py.truthy text = false ->
      bot_db bot' = bot_db bot /\ bot_world bot' = bot_world bot)
  /\ acked bot' = acked bot.
Proof.
  cbv zeta. unfold handle_mention.
  destruct (Py.truthy (Py.strip _)) eqn:Ht; cbn [negb].
  - match goal with |- context [answer_in_thread model ?b ?c ?t ?x ?s] =>
      destruct (answer_in_thread_effect model b c t x s)
        as ((p & tail & Hp & Hc & Hth & _) & _ & Ha)
    end.
    cbn [posted acked] in Hp, Ha.
    split; [|split; [discriminate | exact Ha]].
    exists p. repeat split; try assumption. discriminate.
  - cbn [posted bot_db bot_world acked].
    split; [|split; [split; reflexivity | reflexivity]].
    eexists. split; [reflexivity|]. repeat split; reflexivity.
Qed.

(** X21.  [handle_mention] always posts exactly once, in the event's
    channel and in its thread (or under the mention itself).  A mention that
    is empty once the bot's tag and the blanks around are removed gets the
    greeting, and then no session is created, no message stored and neither
    service called. *)
Theorem mention_gets_one_reply (model bot_user : string) (bot : Bot W) (event : Event) :
  let text :=
    Py.strip (replace ("<@" ++ bot_user ++ ">") ""
                      match ev_text event with Some t => t | None => "" end) in
  let bot' := handle_mention model bot_user bot event in
  (exists p,
      posted bot' = posted bot ++ [p]
      /\ post_channel p = ev_channel event
      /\ post_thread_ts p = or_opt (ev_thread_ts event) (ev_ts event)
      /\ (Py.truthy text = false -> post_text p = greeting))
  /\ (Py.truthy text = false ->
      bot_db bot' = bot_db bot /\ bot_world bot' = bot_world bot)
  /\ acked bot' = acked bot.
Proof. apply mention_effect. Qed.

(** X22.  A reply in the thread of a mention continues the mention's
    session: when a mention outside any thread, posted at [ts], is followed
    by a message of the same user in the same channel with [thread_ts = ts],
    both queries are stored under one session id, that of channel, user and
    [ts], and the sessions table holds one row for it. *)
Theorem thread_reply_continues_session (model bot_user : string) (bot : Bot W)
  (mention reply : Event) (ts : string) :
  let q1 :=
    Py.strip (replace ("<@" ++ bot_user ++ ">") ""
                      match ev_text mention with Some t => t | None => "" end) in
  let q2 := match ev_text reply with Some t => t | None => "" end in
  let sid := create_session_id (ev_channel mention) (ev_user mention) (Some ts) in
  Py.truthy ts = true ->
  truthy_opt (ev_thread_ts mention) = false ->
  ev_ts mention = Some ts ->
  ev_thread_ts reply = Some ts ->
  ev_channel reply = ev_channel mention ->
  ev_user reply = ev_user mention ->
  truthy_opt (ev_bot_id reply) = false ->
  Py.truthy q1 = true ->
  Py.truthy q2 = true ->
  let bot1 := handle_mention model bot_user bot mention in
  let bot2 := handle_message model bot1 reply in
  exists tail1 tail2,
    ChatDatabase.messages (bot_db bot1)
      = ChatDatabase.messages (bot_db bot) ++ mkMessageRow sid "user" q1 :: tail1
    /\ ChatDatabase.messages (bot_db bot2)
       = ChatDatabase.messages (bot_db bot1) ++ mkMessageRow sid "user" q2 :: tail2
    /\ filter (fun r => String.eqb (s_session_id r) sid) (chat_sessions (bot_db bot2))
       = [mkSessionRow sid (ev_channel mention) (ev_user mention) (Some ts)].
Proof.
  intros q1 q2 sid Hts Hnt Hmts Hrt Hch Hus Hbot Hq1 Hq2 bot1 bot2.
  assert (Hth : or_opt (ev_thread_ts mention) (ev_ts mention) = Some ts).
  { unfold or_opt. unfold truthy_opt in Hnt.
    destruct (ev_thread_ts mention) as [s|]; [rewrite Hnt|]; exact Hmts. }
  assert (H1 : exists tail1,
             ChatDatabase.messages (bot_db bot1)
             = ChatDatabase.messages (bot_db bot) ++ mkMessageRow sid "user" q1 :: tail1).
  { subst bot1. unfold handle_mention. fold q1. rewrite Hq1, Hth. cbn [negb].
    match goal with |- context [answer_in_thread model ?b ?c ?t ?x ?s] =>
      destruct (answer_in_thread_effect model b c t x s)
        as ((p & tail & _ & _ & _ & Hm) & _ & _)
    end.
    cbn [bot_db upsert_session ChatDatabase.messages] in Hm.
    exists tail. exact Hm. }
  destruct H1 as [tail1 H1]. exists tail1.
  pose proof (message_effect model bot1 reply) as H2.
  cbv zeta in H2. fold q2 in H2. rewrite Hbot, Hq2, Hrt, Hch, Hus in H2.
  cbn [orb negb] in H2. fold sid in H2.
  destruct H2 as ((p & tail2 & _ & _ & _ & Hm2) & Hrow & _).
  exists tail2. split; [exact H1|]. split; [exact Hm2 | exact Hrow].
Qed.

(** X23.  Every request of type [events_api] is acknowledged exactly
    once, whatever its event; a request of any other type is dropped without
    acknowledgement.  An event that is neither a mention nor a message, and a
    message that is neither in a direct-message channel nor in a thread, is
    acknowledged and otherwise left alone: nothing is posted or stored and no
    service is called. *)
Theorem events_acknowledged (model bot_user : string) (bot : Bot W) (req : SocketRequest) :
  let bot' := handle_slack_event model bot_user bot req in
  if String.eqb (req_type req) "events_api"
  then acked bot' = acked bot ++ [envelope_id req]
       /\ (forall event,
             payload_event req = Some event ->
             opt_is (ev_type event) "app_mention" = false ->
             opt_is (ev_type event) "message"
               && (opt_is (ev_channel_type event) "im"
                   || truthy_opt (ev_thread_ts event)) = false ->
             posted bot' = posted bot
             /\ bot_db bot' = bot_db bot
             /\ bot_world bot' = bot_world bot)
  else bot' = bot.
Proof.
  cbv zeta. unfold handle_slack_event.
  destruct (String.eqb (req_type req) "events_api"); [|reflexivity].
  destruct (payload_event req) as [event|].
  - split.
    + destruct (opt_is (ev_type event) "app_mention").
      * match goal with |- context [handle_mention model bot_user ?b event] =>
          destruct (mention_effect model bot_user b event) as (_ & _ & Ha)
        end. exact Ha.
      * destruct (opt_is (ev_type event) "message"); [|reflexivity].
        destruct (opt_is (ev_channel_type event) "im" || truthy_opt (ev_thread_ts event));
          [|reflexivity].
        match goal with |- context [handle_message model ?b event] =>
          pose proof (message_effect model b event) as Hm
        end.
        cbv zeta in Hm.
        destruct (truthy_opt (ev_bot_id event)
                  || negb (Py.truthy match ev_text event with Some t => t | None => "" end)).
        -- rewrite Hm. reflexivity.
        -- destruct Hm as (_ & _ & Ha). exact Ha.
    + intros ev E Hm Hd. injection E as <-. rewrite Hm.
      destruct (opt_is (ev_type event) "message"); [|repeat split].
      cbn [andb] in Hd. rewrite Hd. repeat split.
  - split; [reflexivity|]. intros ev E. discriminate E.
Qed.

End OnAnyServices.

Lemma thread_reply_continues_session_witness :
  let mention := mkEvent (Some "app_mention") "C024BE91L" "U2147483697"
                         (Some "<@UBOT> disk usage?") None (Some "1700000000.000100")
                         None (Some "channel") in
  let reply := mkEvent (Some "message") "C024BE91L" "U2147483697"
                       (Some "and memory?") (Some "1700000000.000100")
                       (Some "1700000000.000200") None (Some "channel") in
  let bot := mkBot [Returned [TextBlock "42% used."]; Returned [TextBlock "3 GB free."]]
                   ChatDatabase.empty [] [] in
  let bot2 := @handle_message _ Demo.scripted "m"
                (@handle_mention _ Demo.scripted "m" "UBOT" bot mention) reply in
  let sid := create_session_id "C024BE91L" "U2147483697" (Some "1700000000.000100") in
  filter (fun r => String.eqb (s_session_id r) sid) (chat_sessions (bot_db bot2))
  = [mkSessionRow sid "C024BE91L" "U2147483697" (Some "1700000000.000100")].
Proof.
  intros mention reply bot bot2 sid.
  destruct (@thread_reply_continues_session _ Demo.scripted "m" "UBOT" bot mention reply
              "1700000000.000100"
              eq_refl eq_refl eq_refl eq_refl eq_refl eq_refl eq_refl eq_refl eq_refl)
    as (tail1 & tail2 & _ & _ & Hrow).
  exact Hrow.
Defined.

End SlackBotProps.

(** ** The form of a session id *)

Module SessionMore.

Import ChatDatabase.

Local Open Scope Z_scope.

Lemma le_bytes_length (n : nat) (x : Z) : List.length (Hashlib.le_bytes n x) = n.
Proof. revert x; induction n as [|n IH]; intros x; simpl; [reflexivity | rewrite IH; reflexivity]. Qed.

Lemma le_bytes_range (n : nat) (x : Z) :
  Forall (fun b => 0 <= b < 256) (Hashlib.le_bytes n x).
Proof.
  revert x; induction n as [|n IH]; intros x; simpl; constructor; [|apply IH].
  apply Z.mod_pos_bound. lia.
Qed.

Lemma hex_digit_is_hex (d : Z) :
  0 <= d < 16 -> HexText.is_hex_char (Hashlib.hex_digit d) = true.
Proof.
  intros Hd.
  assert (Hall : forallb (fun k => HexText.is_hex_char (Hashlib.hex_digit (Z.of_nat k)))
                         (seq 0 16) = true) by (vm_compute; reflexivity).
  rewrite forallb_forall in Hall.
  specialize (Hall (Z.to_nat d)). rewrite Z2Nat.id in Hall by lia.
  apply Hall. apply in_seq. lia.
Qed.

Lemma hex_of_bytes (bs : list Z) :
  Forall (fun b => 0 <= b < 256) bs ->
  String.length (Hashlib.hex bs) = (2 * List.length bs)%nat
  /\ HexText.all_hex (Hashlib.hex bs) = true.
Proof.
  induction 1 as [|b bs Hb _ [IHl IHh]]; [split; reflexivity|].
  cbn [Hashlib.hex String.length HexText.all_hex List.length].
  rewrite IHl, IHh. split; [lia|].
  rewrite !hex_digit_is_hex; [reflexivity | |].
  - apply Z.mod_pos_bound. lia.
  - split; [apply Z.div_pos; lia | apply Z.div_lt_upper_bound; lia].
Qed.

(** X24.  Whatever the channel, user and thread, the session id is a
    text of exactly 32 characters, each a digit or a letter from [a] to
    [f]. *)
Theorem session_id_form (channel_id user_id : string) (thread_ts : option string) :
  String.length (create_session_id channel_id user_id thread_ts) = 32%nat
  /\ HexText.all_hex (create_session_id channel_id user_id thread_ts) = true.
Proof.
  unfold create_session_id, Hashlib.md5_hexdigest, Hashlib.digest.
  destruct (Hashlib.chunks _ _ _) as [[[a b] c] d].
  assert (HF : Forall (fun x => 0 <= x < 256)
                 (Hashlib.le_bytes 4 a ++ Hashlib.le_bytes 4 b
                  ++ Hashlib.le_bytes 4 c ++ Hashlib.le_bytes 4 d)%list).
  { repeat (apply Forall_app; split); apply le_bytes_range. }
  destruct (hex_of_bytes HF) as [Hl Hh]. split; [|exact Hh].
  rewrite Hl, !length_app, !le_bytes_length. reflexivity.
Qed.

End SessionMore.
